(** * CoinAfrique scraper: the scraping routine and the dashboard reader

    A shallow embedding of [scrape_data] and [plot_category_stats_lite] of
    [my_data_app.py].  The scraping routine is an effectful Python function:
    it is embedded in a state-and-exception monad whose state is the part of
    the outside world the routine touches (the SQLite table, the open
    transaction, the exported files, the requests sent), and whose
    exceptions are the ones the two [try: ... except: pass] blocks catch or
    let through.  What the outside world answers (a page, an [sqlite3]
    error) is a parameter of the embedding, the record [world]. *)

From Stdlib Require Import ZArith Lia Ascii String.
From stdpp Require Import base option list sorting gmap strings pretty.

Open Scope Z_scope.

(** ** Python built-ins used by the source *)

Module Py.

(** [range(lo, hi)] *)
Definition range (lo hi : Z) : list Z :=
  (λ k : nat, lo + Z.of_nat k) <$> seq 0 (Z.to_nat (hi - lo)).

(** A [str] is a sequence of code points; the embedding keeps the code
    points below 256, which is where the markers and the separators the
    source handles live. *)
Definition isspace (c : ascii) : bool :=
  let n := nat_of_ascii c in
  ((9 <=? n)%nat && (n <=? 13)%nat) || ((28 <=? n)%nat && (n <=? 32)%nat)
  || (n =? 133)%nat || (n =? 160)%nat.

Fixpoint lstrip (s : string) : string :=
  match s with
  | String c s' => if isspace c then lstrip s' else s
  | EmptyString => EmptyString
  end.

Fixpoint rstrip (s : string) : string :=
  match s with
  | String c s' =>
      match rstrip s' with
      | EmptyString => if isspace c then EmptyString else String c EmptyString
      | r => String c r
      end
  | EmptyString => EmptyString
  end.

(** [s.strip()] *)
Definition strip (s : string) : string := rstrip (lstrip s).

Fixpoint startswith (s p : string) : bool :=
  match p, s with
  | EmptyString, _ => true
  | String a p', String b s' => if decide (a = b) then startswith s' p' else false
  | String _ _, EmptyString => false
  end.

(** [s.replace(old, new)] for a non-empty [old]: one scan from the left,
    occurrences do not overlap and the text put in is not scanned again.
    [skip] counts the characters of a matched occurrence still to drop. *)
Fixpoint replace_from (skip : nat) (old new s : string) : string :=
  match s with
  | EmptyString => EmptyString
  | String c s' =>
      match skip with
      | S k => replace_from k old new s'
      | O =>
          if startswith s old
          then new +:+ replace_from (String.length old - 1) old new s'
          else String c (replace_from 0 old new s')
      end
  end.

Definition replace (s old new : string) : string := replace_from 0 old new s.

End Py.

(** ** Data *)

(** One row of the table
    [(type_item TEXT, price TEXT, address TEXT, image_link TEXT)].
    [image_link] is the only column the source can bind to [None]. *)
Record row := Row {
  type_item : string;
  price : string;
  address : string;
  image_link : option string;
}.

#[global] Instance row_eq_dec : EqDecision row.
Proof. solve_decision. Defined.

(** One ad card, [div.col.s6.m4.l3], as the four lookups of the source see
    it.  [None] is what [find] (or [.span]) answers when the element is not
    there; for the image the inner option is what [.get('src')] answers. *)
Record container := Container {
  card_description : option string;        (* find('p', 'ad__card-description').text *)
  card_price : option string;              (* find('p', 'ad__card-price').text *)
  card_location : option (option string);  (* find('p', 'ad__card-location'), then .span.text *)
  card_img : option (option string);       (* find('img', 'ad__card-img'), then .get('src') *)
}.

(** ** The outside world *)

(** What a failed [conn.commit()] leaves behind: SQLite keeps the
    transaction open when the database is busy and rolls it back on the
    harder errors. *)
Inductive commit_answer := CommitOk | CommitBusy | CommitRolledBack.

Record world := World {
  (** does [CREATE TABLE IF NOT EXISTS] go through *)
  create_table_ok : bool;
  (** [get(url_base?page=index)] followed by [bs(...)] and [find_all]:
      [None] when one of them raises *)
  page : string → Z → option (list container);
  (** does the [INSERT] for the card at this position of this page go
      through; one that does not fails alone and leaves the transaction as
      it was *)
  insert_ok : Z → nat → bool;
  (** the answer to the [conn.commit()] of this page *)
  commit : Z → commit_answer;
  (** does [pd.read_sql_query] go through *)
  read_sql_ok : bool;
}.

(** The state one call of [scrape_data] works on.  The store of the call is
    the table [table_name] of the database [db_name]; each category has its
    own.  The database file is held by [table] and [pending] and by nothing
    else: [fs] is not the file system, it has the files [to_csv] writes and
    no entry for [db_name], which [sqlite3.connect] creates. *)
Record session := Session {
  conn_open : bool;                 (* [conn] is open *)
  table : list row;                 (* the committed rows of the table *)
  pending : list row;               (* rows inserted in the open transaction *)
  fs : gmap string (list row);      (* the CSV exports, by name *)
  requests : list (string * Z);     (* the GETs sent: base url and page index *)
}.

Inductive exn :=
| RequestException   (* [get], [bs] *)
| AttributeError     (* an attribute of [None] *)
| SqliteError        (* [c.execute], [conn.commit] *)
| DatabaseError.     (* [pd.read_sql_query] *)

Inductive outcome (A : Type) :=
| Return (a : A)
| Raise (e : exn).
Arguments Return {A} a.
Arguments Raise {A} e.

(** A Python computation: it may raise, and what it did to the state before
    raising stays done. *)
Definition py (A : Type) : Type := session → outcome A * session.

#[global] Instance py_ret : MRet py := λ A a s, (Return a, s).
#[global] Instance py_bind : MBind py := λ A B f m s,
  match m s with
  | (Return a, s') => f a s'
  | (Raise e, s') => (Raise e, s')
  end.

Definition raise {A} (e : exn) : py A := λ s, (Raise e, s).
Definition modify (f : session → session) : py unit := λ s, (Return (), f s).
Definition gets {A} (f : session → A) : py A := λ s, (Return (f s), s).

(** [try: body  except: pass] *)
Definition try_except_pass (body : py unit) : py unit := λ s,
  match body s with
  | (Return _, s') => (Return (), s')
  | (Raise _, s') => (Return (), s')
  end.

(** [for x in l: body] *)
Fixpoint for_each {A} (l : list A) (body : A → py unit) : py unit :=
  match l with
  | [] => mret ()
  | x :: l' => body x;; for_each l' body
  end.

(** [o.attr] where [o] may be [None] *)
Definition attr {A} (o : option A) : py A :=
  match o with
  | Some a => mret a
  | None => raise AttributeError
  end.

(** ** The calls [scrape_data] makes *)

Definition set_conn_open (b : bool) (s : session) : session :=
  Session b (table s) (pending s) (fs s) (requests s).
Definition set_table (t : list row) (s : session) : session :=
  Session (conn_open s) t (pending s) (fs s) (requests s).
Definition set_pending (p : list row) (s : session) : session :=
  Session (conn_open s) (table s) p (fs s) (requests s).
Definition set_fs (f : gmap string (list row)) (s : session) : session :=
  Session (conn_open s) (table s) (pending s) f (requests s).
Definition set_requests (r : list (string * Z)) (s : session) : session :=
  Session (conn_open s) (table s) (pending s) (fs s) r.

(** [sqlite3.connect(db_name)]: a connection with no transaction open. *)
Definition sqlite3_connect : py unit :=
  modify (λ s, set_pending [] (set_conn_open true s)).

(** [c.execute('CREATE TABLE IF NOT EXISTS ...')]: the rows of a table that
    is there already stay; a table that is not there is the empty table. *)
Definition execute_create (w : world) : py unit :=
  if create_table_ok w then mret () else raise SqliteError.

(** [get(f'{url_base}?page={index}')], [bs(res.content, 'html.parser')] and
    [soup.find_all('div', 'col s6 m4 l3')] *)
Definition get_containers (w : world) (url_base : string) (index : Z)
  : py (list container) :=
  modify (λ s, set_requests (requests s ++ [(url_base, index)]) s);;
  match page w url_base index with
  | Some containers => mret containers
  | None => raise RequestException
  end.

(** [c.execute('INSERT INTO ... VALUES(?,?,?,?)', (t, p, a, i))] *)
Definition execute_insert (w : world) (index : Z) (pos : nat) (r : row) : py unit :=
  if insert_ok w index pos
  then modify (λ s, set_pending (pending s ++ [r]) s)
  else raise SqliteError.

(** [conn.commit()] *)
Definition conn_commit (w : world) (index : Z) : py unit :=
  match commit w index with
  | CommitOk => modify (λ s, set_pending [] (set_table (table s ++ pending s) s))
  | CommitBusy => raise SqliteError
  | CommitRolledBack => modify (set_pending []);; raise SqliteError
  end.

(** [pd.read_sql_query('SELECT * FROM ...', conn)]: the connection sees the
    rows of its own open transaction. *)
Definition read_sql_query (w : world) : py (list row) :=
  if read_sql_ok w then gets (λ s, table s ++ pending s) else raise DatabaseError.

(** [conn.close()]: what was not committed is rolled back. *)
Definition conn_close : py unit :=
  modify (λ s, set_pending [] (set_conn_open false s)).

(** [df.to_csv(csv_name, index=False)] *)
Definition to_csv (csv_name : string) (df : list row) : py unit :=
  modify (λ s, set_fs (<[csv_name := df]> (fs s)) s).

(** [df.drop_duplicates()]: a row is dropped when an equal row was met
    before it ([keep='first']); the rows kept stay in their order. *)
Fixpoint drop_duplicates_from (seen : list row) (df : list row) : list row :=
  match df with
  | [] => []
  | r :: df' =>
      if decide (r ∈ seen) then drop_duplicates_from seen df'
      else r :: drop_duplicates_from (r :: seen) df'
  end.

Definition drop_duplicates (df : list row) : list row := drop_duplicates_from [] df.

(** [df.empty] *)
Definition empty (df : list row) : bool :=
  match df with [] => true | _ => false end.

(** ** [scrape_data] *)

(** The body of the inner [try], for the card at position [pos] of the page. *)
Definition scrape_container (w : world) (index : Z) (pos : nat) (c : container)
  : py unit :=
  t ← attr (card_description c);
  let t := Py.strip t in
  p ← attr (card_price c);
  let p := Py.replace (Py.replace p "CFA" "") " " "" in
  location ← attr (card_location c);
  a ← attr location;
  let a := Py.strip a in
  img ← attr (card_img c);
  let i := img in
  execute_insert w index pos (Row t p a i).

(** [for container in containers: try: ... except: pass] *)
Fixpoint for_containers (w : world) (index : Z) (pos : nat) (containers : list container)
  : py unit :=
  match containers with
  | [] => mret ()
  | c :: containers' =>
      try_except_pass (scrape_container w index pos c);;
      for_containers w index (S pos) containers'
  end.

(** The body of the page loop. *)
Definition scrape_page (w : world) (url_base : string) (index : Z) : py unit :=
  try_except_pass (
    containers ← get_containers w url_base index;
    for_containers w index 0 containers;;
    conn_commit w index).

Definition actual_pages (user_pages max_limit : Z) : Z := Z.min user_pages max_limit.

(** The page loop, [for index in range(1, actual_pages + 1)]. *)
Definition scrape_pages (w : world) (url_base : string) (pages : Z) : py unit :=
  for_each (Py.range 1 (pages + 1)) (scrape_page w url_base).

(** The end of the routine, from [if not df.empty] on. *)
Definition export (csv_name : string) (df : list row) : py (list row) :=
  if negb (empty df) then
    let df := drop_duplicates df in
    to_csv csv_name df;;
    mret df
  else mret df.

(** The progress bar (lines 147, 148, 165 and 169) only draws and is left
    out. *)
Definition scrape_data (w : world) (url_base table_name db_name csv_name : string)
    (user_pages max_limit : Z) : py (list row) :=
  sqlite3_connect;;
  execute_create w;;
  scrape_pages w url_base (actual_pages user_pages max_limit);;
  df ← read_sql_query w;
  conn_close;;
  export csv_name df.

(** ** The four categories of the scraping mode *)

Inductive category := MensClothes | MensShoes | ChildrenClothes | ChildrenShoes.

Definition url_of (cat : category) : string :=
  match cat with
  | MensClothes => "https://sn.coinafrique.com/categorie/vetements-homme"
  | MensShoes => "https://sn.coinafrique.com/categorie/chaussures-homme"
  | ChildrenClothes => "https://sn.coinafrique.com/categorie/vetements-enfants"
  | ChildrenShoes => "https://sn.coinafrique.com/categorie/chaussures-enfants"
  end.

Definition table_of (cat : category) : string :=
  match cat with
  | MensClothes => "mens_clothes_tab"
  | MensShoes => "mens_shoes_tab"
  | ChildrenClothes => "children_clothes_tab"
  | ChildrenShoes => "children_shoes_tab"
  end.

Definition db_of (cat : category) : string :=
  match cat with
  | MensClothes => "mens_clothes.db"
  | MensShoes => "mens_shoes.db"
  | ChildrenClothes => "children_clothes.db"
  | ChildrenShoes => "children_shoes.db"
  end.

Definition csv_of (cat : category) : string :=
  match cat with
  | MensClothes => "mens_clothes_clean_data.csv"
  | MensShoes => "mens_shoes_clean_data.csv"
  | ChildrenClothes => "children_clothes_clean_data.csv"
  | ChildrenShoes => "children_shoes_clean_data.csv"
  end.

Definition cap_of (cat : category) : Z :=
  match cat with
  | MensClothes => 119
  | MensShoes => 119
  | ChildrenClothes => 22
  | ChildrenShoes => 8
  end.

(** One of the four calls of the scraping mode; [Pages] is the slider. *)
Definition scrape_category (w : world) (cat : category) (Pages : Z) : py (list row) :=
  scrape_data w (url_of cat) (table_of cat) (db_of cat) (csv_of cat) Pages (cap_of cat).

(** ** What the routine computes, step by step *)

(** The row the four lookups of a card give, when none of them fails. *)
Definition extract (c : container) : option row :=
  t ← card_description c;
  p ← card_price c;
  location ← card_location c;
  a ← location;
  i ← card_img c;
  Some (Row (Py.strip t) (Py.replace (Py.replace p "CFA" "") " " "") (Py.strip a) i).

(** The rows one card adds to the open transaction. *)
Definition inserted (w : world) (index : Z) (pos : nat) (c : container) : list row :=
  match extract c with
  | Some r => if insert_ok w index pos then [r] else []
  | None => []
  end.

Fixpoint inserted_from (w : world) (index : Z) (pos : nat) (cs : list container)
  : list row :=
  match cs with
  | [] => []
  | c :: cs' => inserted w index pos c ++ inserted_from w index (S pos) cs'
  end.

(** The rows a page adds to the open transaction. *)
Definition page_rows (w : world) (url_base : string) (index : Z) : list row :=
  match page w url_base index with
  | Some cs => inserted_from w index 0 cs
  | None => []
  end.

(** The state after one turn of the page loop. *)
Definition after_page (w : world) (url_base : string) (s : session) (index : Z)
  : session :=
  let s1 := set_requests (requests s ++ [(url_base, index)]) s in
  match page w url_base index with
  | None => s1
  | Some cs =>
      let p := pending s ++ inserted_from w index 0 cs in
      match commit w index with
      | CommitOk => set_pending [] (set_table (table s ++ p) s1)
      | CommitBusy => set_pending p s1
      | CommitRolledBack => set_pending [] s1
      end
  end.

(** The state after the page loop. *)
Definition after_pages (w : world) (url_base : string) (s : session) (pages : Z)
  : session :=
  foldl (after_page w url_base) s (Py.range 1 (pages + 1)).


(** The routine up to [pd.read_sql_query], with the table it reads. *)
Definition read_back (w : world) (url_base : string) (user_pages max_limit : Z)
  : py (list row) :=
  sqlite3_connect;;
  execute_create w;;
  scrape_pages w url_base (actual_pages user_pages max_limit);;
  read_sql_query w.

(** ** The dashboard reader, [plot_category_stats_lite] *)

Module Dashboard.

(** [\d] of a [str] pattern, on the code points below 256. *)
Definition isdigit (c : ascii) : bool :=
  let n := nat_of_ascii c in (48 <=? n)%nat && (n <=? 57)%nat.

(** [.str.replace(r'[^\d]', '', regex=True)] *)
Fixpoint strip_non_digits (s : string) : string :=
  match s with
  | EmptyString => EmptyString
  | String c s' =>
      if isdigit c then String c (strip_non_digits s') else strip_non_digits s'
  end.

Fixpoint decimal_from (acc : N) (s : string) : option N :=
  match s with
  | EmptyString => Some acc
  | String c s' =>
      if isdigit c
      then decimal_from (10 * acc + N.of_nat (nat_of_ascii c - 48)) s'
      else None
  end.

(** The integers below 2^53 are the ones every dtype [to_numeric] may
    choose for the column, [int64] or [float64], holds as written. *)
Definition exact_bound : N := 2 ^ 53.

(** A cell of [df['clean_price']]: NaN, or a number below 2^53, which the
    column holds as it is written.  From 2^53 on what the column holds
    depends on its dtype and on the length of the digits (a rounded
    [float64], an infinity, NaN); it is not followed, and [Large] only
    keeps the digits that were read. *)
Inductive cleaned :=
| NaN
| Number (n : N)
| Large (digits : string).

#[global] Instance cleaned_eq_dec : EqDecision cleaned.
Proof. solve_decision. Defined.

(** [pd.to_numeric(..., errors='coerce')] on what line 96 gives it, a
    string of digits: the number written, and NaN for the empty string.
    Signs, points and exponents, which [to_numeric] reads too, are gone
    after the strip. *)
Definition to_numeric (s : string) : cleaned :=
  match s with
  | EmptyString => NaN
  | _ =>
      match decimal_from 0 s with
      | Some n => if (n <? exact_bound)%N then Number n else Large s
      | None => NaN
      end
  end.

(** One cell of [df['clean_price']], from the [str] of the price cell. *)
Definition clean_price (cell : string) : cleaned :=
  to_numeric (strip_non_digits cell).

(** The number of a cell that has one. *)
Definition read (c : cleaned) : option N :=
  match c with
  | Number n => Some n
  | NaN | Large _ => None
  end.

Definition is_large (c : cleaned) : bool :=
  match c with
  | Large _ => true
  | NaN | Number _ => false
  end.

(** The range in which the dashboard is followed: every number of the
    column is below 2^53, and so is their sum.  There the numbers, their
    maximum and their sum are exact in a [float64], and the quotient of
    the sum by the count is rounded by less than its distance to the next
    integer. *)
Definition in_range (col : list cleaned) : bool :=
  forallb (λ c, negb (is_large c)) col
  && (foldr N.add 0 (omap read col) <? exact_bound)%N.

(** [Series.value_counts()]: the values that are not null, each with the
    number of cells that hold it, the most frequent first; values with
    the same count stay in the order of their first cells. *)
Fixpoint distinct_from (seen : list string) (col : list (option string))
  : list string :=
  match col with
  | [] => []
  | None :: col' => distinct_from seen col'
  | Some v :: col' =>
      if decide (v ∈ seen) then distinct_from seen col'
      else v :: distinct_from (v :: seen) col'
  end.

Definition occurrences (v : string) (col : list (option string)) : nat :=
  length (filter (λ cell, cell = Some v) col).

Definition tally (col : list (option string)) : list (string * nat) :=
  (λ v, (v, occurrences v col)) <$> distinct_from [] col.

Definition more_frequent (a b : string * nat) : Prop := (b.2 ≤ a.2)%nat.

#[global] Instance more_frequent_dec : RelDecision more_frequent.
Proof. intros a b. unfold more_frequent. apply _. Defined.

(** The stable sort by falling count: a bar goes behind every bar that is
    at least as frequent. *)
Fixpoint insert_bar (bar : string * nat) (bars : list (string * nat))
  : list (string * nat) :=
  match bars with
  | [] => [bar]
  | bar' :: bars' =>
      if decide (more_frequent bar' bar) then bar' :: insert_bar bar bars'
      else bar :: bars
  end.

Definition sort_bars (bars : list (string * nat)) : list (string * nat) :=
  foldl (λ sorted bar, insert_bar bar sorted) [] bars.

Definition value_counts (col : list (option string)) : list (string * nat) :=
  sort_bars (tally col).

(** [int(Series.mean())], in the range. *)
Definition mean (prices : list N) : Z :=
  Z.of_N (foldr N.add 0%N prices) / Z.of_nat (length prices).

(** [int(Series.max())], in the range. *)
Definition maximum (prices : list N) : Z := Z.of_N (foldr N.max 0%N prices).

(** A column the charts read, picked by lines 89 and 91 among the columns
    of the frame.  Line 95 writes [df['clean_price']] before the charts
    are drawn: a column of that name, when a price column was found, is
    not read as it was loaded. *)
Inductive column (R : Type) :=
| Column (cells : R → option string)
| CleanPriceColumn (cells : R → option string).

Arguments Column {R} cells.
Arguments CleanPriceColumn {R} cells.

(** The [str] of a number of [clean_price], the value of a bar: the
    column is an [int64] one when every row has a number, a [float64] one
    when a row has NaN. *)
Definition label (float : bool) (n : N) : string :=
  if float then pretty n +:+ ".0" else pretty n.

(** The cells lines 117 and 123 find in a column.  [clean] is the column
    line 95 wrote, if it wrote one. *)
Definition cells_after {R : Type} (df : list R)
    (clean : option (R → option N)) (col : column R) : R → option string :=
  match col, clean with
  | Column cells, _ => cells
  | CleanPriceColumn cells, None => cells
  | CleanPriceColumn _, Some clean =>
      let float := bool_decide (Exists (λ r, clean r = None) df) in
      λ r, label float <$> clean r
  end.

(** What the dashboard shows, in the range. *)
Record stats := Stats {
  total_items : nat;                              (* "Total Items" *)
  avg_price : option Z;                           (* "Avg Price" *)
  max_price : option Z;                           (* "Max Price" *)
  top_locations : option (list (string * nat));   (* the bar chart of "Top Locations" *)
  top_items : list (string * nat);                (* the bar chart of "Top Items" *)
  price_distribution : option (list N);           (* the data of the histogram *)
}.

(** What a call puts on the page: the warning of the early return; or the
    whole dashboard; or, out of the range, "Total Items" of line 105 and
    then what is not followed, where lines 107, 108 and 131 work on
    rounded numbers and may raise. *)
Inductive dashboard :=
| NoData
| Shown (st : stats)
| OutOfRange (total_items : nat).

(** The number "Total Items" shows. *)
Definition count_shown (d : dashboard) : option nat :=
  match d with
  | NoData => None
  | Shown st => Some (total_items st)
  | OutOfRange n => Some n
  end.

(** A frame is the list of its rows and a column is what it holds in each
    row.  The three columns lines 87 to 91 pick are arguments; the price
    column is given by the [str] of its cells, as [.astype(str)] makes
    it. *)
Definition plot_category_stats_lite {R : Type} (df : list R)
    (price_col : option (R → string))
    (address_col : option (column R))
    (item_col : column R) : dashboard :=
  match df with
  | [] => NoData
  | _ =>
      let cleaned := (λ col r, clean_price (col r)) <$> price_col in
      if from_option (λ cleaned, in_range (cleaned <$> df)) true cleaned then
        let clean := (λ cleaned r, read (cleaned r)) <$> cleaned in
        let df_clean :=
          match clean with
          | Some clean => filter (λ r, is_Some (clean r)) df
          | None => df
          end in
        let prices :=
          match clean with
          | Some clean => match omap clean df_clean with [] => None | l => Some l end
          | None => None
          end in
        Shown {|
          total_items := length df;
          avg_price := mean <$> prices;
          max_price := maximum <$> prices;
          top_locations :=
            (λ col, take 10 (value_counts (cells_after df clean col <$> df)))
              <$> address_col;
          top_items := take 10 (value_counts (cells_after df clean item_col <$> df));
          price_distribution := prices;
        |}
      else OutOfRange (length df)
  end.

End Dashboard.

(** ** Sample cards, worlds and sessions *)

Module Sample.

Definition shirt : container :=
  Container (Some " Chemise homme ") (Some "12 500 CFA")
    (Some (Some " Dakar ")) (Some (Some "https://static.coinafrique.com/1.jpg")).

Definition shirt_row : row :=
  Row "Chemise homme" "12500" "Dakar" (Some "https://static.coinafrique.com/1.jpg").

(** a card with no price element *)
Definition no_price : container :=
  Container (Some "Sandales") None (Some (Some "Thies")) (Some (Some "https://static.coinafrique.com/2.jpg")).

(** a card whose [img] element has no [src] attribute *)
Definition no_src : container :=
  Container (Some "Sandales") (Some "3 000 CFA") (Some (Some "Thies")) (Some None).

(** a card whose price text ends with a line feed *)
Definition price_on_two_lines : container :=
  Container (Some "Sandales") (Some (String "010" "3 000 CFA" +:+ String "010" ""))
    (Some (Some "Thies")) (Some (Some "https://static.coinafrique.com/2.jpg")).

(** a session that starts on an empty store with no file exported *)
Definition fresh : session := Session false [] [] ∅ [].

(** a session that starts with a file left by an earlier one *)
Definition with_old_export : session :=
  Session false [] [] {[ csv_of ChildrenShoes := [shirt_row] ]} [].

(** every page holds the same card, nothing fails *)
Definition same_card_everywhere : world :=
  World true (λ _ _, Some [shirt]) (λ _ _, true) (λ _, CommitOk) true.

(** every page is empty, nothing fails *)
Definition empty_pages : world :=
  World true (λ _ _, Some []) (λ _ _, true) (λ _, CommitOk) true.

(** page 2 cannot be fetched *)
Definition page_2_down : world :=
  World true (λ _ index, if decide (index = 2) then None else Some [shirt])
    (λ _ _, true) (λ _, CommitOk) true.

(** every [INSERT] fails and every [commit] too *)
Definition store_refuses_rows : world :=
  World true (λ _ _, Some [shirt]) (λ _ _, false) (λ _, CommitRolledBack) true.

(** every commit finds the database busy *)
Definition always_busy : world :=
  World true (λ _ _, Some [shirt]) (λ _ _, true) (λ _, CommitBusy) true.

(** the table cannot be created *)
Definition no_schema : world :=
  World false (λ _ _, Some [shirt]) (λ _ _, true) (λ _, CommitOk) true.

(** the table cannot be read back *)
Definition no_read_back : world :=
  World true (λ _ _, Some [shirt]) (λ _ _, true) (λ _, CommitOk) false.

(** one page with a card that has no [src] *)
Definition page_with_no_src : world :=
  World true (λ _ _, Some [no_src]) (λ _ _, true) (λ _, CommitOk) true.

(** one page: three good cards and, second of the four, a card without price *)
Definition page_with_no_price : world :=
  World true (λ _ _, Some [shirt; no_price; shirt; shirt])
    (λ _ _, true) (λ _, CommitOk) true.

(** the site answers every category alike *)
Definition everywhere (w : world) : category → world := λ _, w.

(** the table of the men's shoes cannot be read back *)
Definition shoes_unreadable : category → world :=
  λ cat, match cat with MensShoes => no_read_back | _ => same_card_everywhere end.

(** a frame as the export writes it, with prices as a site shows them *)
Definition listings : list row :=
  [ Row "Chemise" "12 500 CFA" "Dakar" None;
    Row "Sandales" "Prix sur demande" "Dakar" None;
    Row "Chemise" "3 000 CFA" "Thies" None ].

End Sample.

(** ** Tactics *)

(** The cases of one turn of the page loop: the page came or not, and what
    its commit answered. *)
Ltac page_cases :=
  unfold after_page;
  match goal with
  | |- context [page ?w ?u ?i] =>
      destruct (page w u i); [destruct (commit w i)|]
  end.

(** ** The scraping mode of the app, lines 212 to 233 *)

#[global] Instance category_eq_dec : EqDecision category.
Proof. solve_decision. Defined.

(** What the four calls of the scraping mode work on: each category has
    its own database, and the calls share the files and the network. *)
Record app := App {
  stores : category → list row;      (* the table of each database *)
  files : gmap string (list row);    (* the exported files, by name *)
  sent : list (string * Z);          (* the GETs sent *)
}.

Definition app_py (A : Type) : Type := app → outcome A * app.

#[global] Instance app_py_ret : MRet app_py := λ A x a, (Return x, a).
#[global] Instance app_py_bind : MBind app_py := λ A B f m a,
  match m a with
  | (Return x, a') => f x a'
  | (Raise e, a') => (Raise e, a')
  end.

(** One call [scrape_data(url, table, db, csv, Pages, cap)], on the
    database of its category; [conn] is a local of the call. *)
Definition call_scrape_data (w : category → world) (cat : category) (Pages : Z)
  : app_py (list row) := λ a,
  let run := scrape_category (w cat) cat Pages
               (Session false (stores a cat) [] (files a) (sent a)) in
  (run.1,
   App (λ c, if decide (c = cat) then table run.2 else stores a c)
       (fs run.2) (requests run.2)).

(** The branch [Choices == 'Scrape data using beautifulSoup']: the four
    calls, one after the other, each followed by [load] on the table it
    returned, under the title given here. *)
Definition scrape_mode (w : category → world) (Pages : Z)
  : app_py (list (string * list row)) :=
  df_mc ← call_scrape_data w MensClothes Pages;
  df_ms ← call_scrape_data w MensShoes Pages;
  df_cc ← call_scrape_data w ChildrenClothes Pages;
  df_cs ← call_scrape_data w ChildrenShoes Pages;
  mret [("Men Clothes Data"%string, df_mc); ("Men Shoes Data"%string, df_ms);
        ("Children Clothes Data"%string, df_cc); ("Children Shoes Data"%string, df_cs)].

(** The order of the four calls. *)
Definition rank (cat : category) : nat :=
  match cat with
  | MensClothes => 0
  | MensShoes => 1
  | ChildrenClothes => 2
  | ChildrenShoes => 3
  end.

(** A category the calls from [a] to [a'] had nothing to do with: its
    database and its export are the same and no request went to its url. *)
Definition untouched (cat : category) (a a' : app) : Prop :=
  stores a' cat = stores a cat ∧
  files a' !! csv_of cat = files a !! csv_of cat ∧
  ∀ x, x ∈ sent a' → x.1 = url_of cat → x ∈ sent a.

(** The requests of one category, [Pages] asked. *)
Definition requests_of (cat : category) (Pages : Z) : list (string * Z) :=
  (λ i, (url_of cat, i)) <$> Py.range 1 (Z.min Pages (cap_of cat) + 1).

(** ** The reading side of the app: files, frames and what is shown *)

Module Reader.

(** A frame as [pd.read_csv] gives it: the names of its columns and its
    rows.  A cell is NaN ([None]) or a value, given by its [str]. *)
Record frame := Frame {
  columns : list string;
  rows : list (list (option string));
}.

(** [pd.DataFrame()] *)
Definition DataFrame : frame := Frame [] [].

(** [df.empty]: one of the two axes has length 0 *)
Definition empty (df : frame) : bool :=
  match columns df, rows df with
  | [], _ => true
  | _, [] => true
  | _, _ => false
  end.

(** [df.shape] *)
Definition shape (df : frame) : nat * nat := (length (rows df), length (columns df)).

(** [df.head(n)] *)
Definition head (n : nat) (df : frame) : frame := Frame (columns df) (take n (rows df)).

(** What the reading side works on.  A file on the disk is given by what
    [pd.read_csv] makes of it: a frame, or [None] when it raises.  The
    cache is the one [@st.cache_data] keeps for [load_csv_data], by
    argument. *)
Record reader := Reader {
  disk : gmap string (option frame);
  cache : gmap string frame;
}.

(** The body of [load_csv_data], lines 71 to 76. *)
Definition read_file (d : gmap string (option frame)) (filename : string) : frame :=
  match d !! filename with
  | Some content =>
      match content with
      | Some df => df
      | None => DataFrame
      end
  | None => DataFrame
  end.

(** [load_csv_data] under [@st.cache_data]: the body runs on the first call
    with a filename, and its result is what every later call with that
    filename gets. *)
Definition load_csv_data (filename : string) (st : reader) : frame * reader :=
  match cache st !! filename with
  | Some df => (df, st)
  | None =>
      let df := read_file (disk st) filename in
      (df, Reader (disk st) (<[filename := df]> (cache st)))
  end.

(** What [load] puts on the page once its button is pressed. *)
Record shown := Shown {
  subheader : string;
  dimensions : nat * nat;     (* rows x columns *)
  preview : frame;            (* [st.dataframe(dataframe.head(100))] *)
  file_name : string;         (* of the download button *)
  data : frame;               (* what the download button gives, as CSV *)
}.

(** [load(dataframe, title, key, key1)]; [pressed] is [st.button(title, key=key1)]. *)
Definition load (dataframe : frame) (title : string) (pressed : bool) : option shown :=
  if pressed then
    Some {| subheader := title;
            dimensions := shape dataframe;
            preview := head 100 dataframe;
            file_name := Py.replace title " " "_" +:+ ".csv";
            data := dataframe |}
  else None.

(** One turn of the loops of lines 186 to 192 and 244 to 250: the frame is
    handed to [load], or a warning names the file. *)
Inductive listed :=
| Loaded (title : string) (df : frame)
| NotFound (filename : string).

Fixpoint list_files (entries : list (string * string)) (st : reader)
  : list listed * reader :=
  match entries with
  | [] => ([], st)
  | (filename, title) :: entries' =>
      let '(df, st1) := load_csv_data filename st in
      let '(out, st2) := list_files entries' st1 in
      ((if negb (empty df) then Loaded title df else NotFound filename) :: out, st2)
  end.

(** The branch [Choices == 'Download scraped data']. *)
Definition download_mode : reader → list listed * reader :=
  list_files [("mens_clothes_clean_data.csv", "Mens Clothes Data");
              ("mens_shoes_clean_data.csv", "Mens Shoes Data");
              ("children_clothes_clean_data.csv", "Children Clothes Data");
              ("children_shoes_clean_data.csv", "Children Shoes Data")]%string.

(** [load_my_scraped_files] *)
Definition load_my_scraped_files : reader → list listed * reader :=
  list_files [("men_clothes.csv", "Men's Clothes");
              ("men_shoes.csv", "Men's Shoes");
              ("children_clothes.csv", "Children's Clothes");
              ("children_shoes.csv", "Children's Shoes")]%string.

(** The loop of [safe_plot], lines 270 to 276: the first file of the list
    that exists is loaded, and the loop is left. *)
Fixpoint first_existing (filename_list : list string) (st : reader)
  : (frame * string) * reader :=
  match filename_list with
  | [] => ((DataFrame, ""%string), st)
  | fname :: filename_list' =>
      if decide (is_Some (disk st !! fname)) then
        let '(df, st') := load_csv_data fname st in ((df, fname), st')
      else first_existing filename_list' st
  end.

(** What [safe_plot] puts in its tab: the plots of a frame, with the file
    it comes from, or the warning that no data was found. *)
Inductive plotted :=
| Visualizing (used_file : string) (df : frame)
| NoDataFound (looked_for : list string).

Definition safe_plot (filename_list : list string) (st : reader) : plotted * reader :=
  let '((df, used_file), st') := first_existing filename_list st in
  (if negb (empty df) then Visualizing used_file df else NoDataFound filename_list, st').

(** [files_map] *)
Definition files_map (cat : category) : list string :=
  match cat with
  | MensClothes => ["men_clothes.csv"; "mens_clothes_clean_data.csv"]
  | MensShoes => ["men_shoes.csv"; "mens_shoes_clean_data.csv"]
  | ChildrenClothes => ["children_clothes.csv"; "children_clothes_clean_data.csv"]
  | ChildrenShoes => ["children_shoes.csv"; "children_shoes_clean_data.csv"]
  end%string.

(** [c.lower()], on the code points below 256: the letters A to Z and the
    capital letters of Latin-1 (all of U+00C0 to U+00DE but the
    multiplication sign) are moved 32 up. *)
Definition lower_char (c : ascii) : ascii :=
  let n := nat_of_ascii c in
  if ((65 <=? n)%nat && (n <=? 90)%nat)
     || ((192 <=? n)%nat && (n <=? 222)%nat && negb (n =? 215)%nat)
  then ascii_of_nat (n + 32) else c.

Fixpoint lower (s : string) : string :=
  match s with
  | EmptyString => EmptyString
  | String c s' => String (lower_char c) (lower s')
  end.

(** [sub in s] *)
Fixpoint contains (sub s : string) : bool :=
  match s with
  | EmptyString => Py.startswith s sub
  | String _ s' => Py.startswith s sub || contains sub s'
  end.

Definition possible_addr : list string :=
  ["address"; "location"; "ville"; "lieu"; "adresse"; "region"]%string.

Definition possible_names : list string :=
  ["type_item"; "type_clothes"; "type_shoes"; "name"; "description"; "titre"]%string.

(** Lines 87 to 91, on [df.columns]. *)
Definition price_col (cols : list string) : option string :=
  List.find (λ c, contains "price" (lower c) || contains "prix" (lower c)) cols.

Definition address_col (cols : list string) : option string :=
  List.find (λ c, bool_decide (Py.strip (lower c) ∈ possible_addr)) cols.

(** The default of [next], [df.columns[0]], is computed before [next] runs:
    [None] is the [IndexError] of a frame with no column. *)
Definition item_col (cols : list string) : option string :=
  match cols with
  | [] => None
  | first :: _ =>
      Some (default first
              (List.find (λ c, bool_decide (Py.strip (lower c) ∈ possible_names)) cols))
  end.

(** [df[name]] in one row: the cell under the first column of that name. *)
Definition cell (cols : list string) (name : string) (row : list (option string))
  : option string :=
  i ← fst <$> list_find (λ c, c = name) cols;
  mjoin (row !! i).

(** [.astype(str)] of a cell *)
Definition str_of_cell (c : option string) : string :=
  match c with
  | Some s => s
  | None => "nan"
  end.

(** The column of a name for the charts: [df['clean_price']] is the
    column line 95 writes to, any other is read as it was loaded. *)
Definition column_of (cols : list string) (name : string)
  : Dashboard.column (list (option string)) :=
  if decide (name = "clean_price"%string)
  then Dashboard.CleanPriceColumn (cell cols name)
  else Dashboard.Column (cell cols name).

(** [plot_category_stats_lite(df, category_name)] on a frame: the early
    return, the choice of the columns, and the aggregates.  A frame that
    is not empty has a first column, so an item column is always found. *)
Definition plot_category_stats_lite (df : frame) : Dashboard.dashboard :=
  if empty df then Dashboard.NoData
  else
    let cols := columns df in
    match item_col cols with
    | Some item =>
        Dashboard.plot_category_stats_lite (rows df)
          ((λ name row, str_of_cell (cell cols name row)) <$> price_col cols)
          (column_of cols <$> address_col cols)
          (column_of cols item)
    | None => Dashboard.NoData
    end.

End Reader.

Module ReaderSample.

(** a file that holds two rows *)
Definition two_rows : Reader.frame :=
  Reader.Frame ["type_item"; "price"; "address"; "image_link"]%string
    [[Some "Chemise"; Some "12500"; Some "Dakar"; None];
     [Some "Sandales"; Some "3000"; Some "Thies"; None]]%string.

(** a file whose first column is named [clean_price], and which has no
    column for the items *)
Definition prices_first : Reader.frame :=
  Reader.Frame ["clean_price"; "address"]%string
    [[Some "12 500 CFA"; Some "Dakar"];
     [Some "Sur demande"; Some "Dakar"];
     [Some "12500"; Some "Thies"]]%string.

(** a file with a price of twenty digits *)
Definition huge_price : Reader.frame :=
  Reader.Frame ["type_item"; "price"]%string
    [[Some "Chemise"; Some "12345678901234567890 CFA"];
     [Some "Sandales"; Some "3000"]]%string.

(** a file with a header and no row *)
Definition header_only : Reader.frame :=
  Reader.Frame ["type_item"; "price"; "address"; "image_link"]%string [].

(** nothing on the disk and nothing in the cache *)
Definition nothing : Reader.reader := Reader.Reader ∅ ∅.

(** the local file of the men's clothes has no row, their export has two *)
Definition empty_local_file : Reader.reader :=
  Reader.Reader
    {[ "men_clothes.csv"%string := Some header_only;
       "mens_clothes_clean_data.csv"%string := Some two_rows ]} ∅.

(** the disk once the four exports are written *)
Definition exports_written : gmap string (option Reader.frame) :=
  {[ "mens_clothes_clean_data.csv"%string := Some two_rows;
     "mens_shoes_clean_data.csv"%string := Some two_rows;
     "children_clothes_clean_data.csv"%string := Some two_rows;
     "children_shoes_clean_data.csv"%string := Some two_rows ]}.

End ReaderSample.
Lemma session_eta (s : session) :
  Session (conn_open s) (table s) (pending s) (fs s) (requests s) = s.
Proof. by destruct s. Qed.

Lemma scrape_container_extract w index pos c s :
  scrape_container w index pos c s =
    match extract c with
    | Some r => execute_insert w index pos r s
    | None => (Raise AttributeError, s)
    end.
Proof.
  unfold scrape_container, extract.
  destruct c as [[t|] [p|] [[a|]|] [i|]]; reflexivity.
Qed.

Lemma try_scrape_container w index pos c s :
  try_except_pass (scrape_container w index pos c) s =
    (Return (), set_pending (pending s ++ inserted w index pos c) s).
Proof.
  unfold try_except_pass, inserted. rewrite scrape_container_extract.
  destruct (extract c) as [r|]; simpl.
  - unfold execute_insert. destruct (insert_ok w index pos); simpl.
    + reflexivity.
    + rewrite app_nil_r. unfold set_pending. by rewrite session_eta.
  - rewrite app_nil_r. unfold set_pending. by rewrite session_eta.
Qed.

Lemma for_containers_run w index cs : ∀ pos s,
  for_containers w index pos cs s =
    (Return (), set_pending (pending s ++ inserted_from w index pos cs) s).
Proof.
  induction cs as [|c cs IH]; intros pos s; simpl.
  - rewrite app_nil_r. unfold set_pending. by rewrite session_eta.
  - unfold mbind, py_bind. rewrite try_scrape_container, IH.
    unfold set_pending; simpl. by rewrite <- app_assoc.
Qed.

Lemma scrape_page_run w url_base index s :
  scrape_page w url_base index s = (Return (), after_page w url_base s index).
Proof.
  unfold scrape_page, after_page, try_except_pass, get_containers.
  unfold mbind, py_bind, modify; simpl.
  destruct (page w url_base index) as [cs|]; simpl; [|reflexivity].
  rewrite for_containers_run. unfold conn_commit.
  destruct (commit w index); reflexivity.
Qed.

Lemma for_each_scrape_page w url_base (l : list Z) : ∀ s,
  for_each l (scrape_page w url_base) s = (Return (), foldl (after_page w url_base) s l).
Proof.
  induction l as [|i l IH]; intros s; simpl; [reflexivity|].
  unfold mbind, py_bind. by rewrite scrape_page_run, IH.
Qed.

Lemma scrape_pages_run w url_base pages s :
  scrape_pages w url_base pages s = (Return (), after_pages w url_base s pages).
Proof. apply for_each_scrape_page. Qed.

(** The whole routine, path by path. *)
Lemma scrape_data_run w url_base table_name db_name csv_name user_pages max_limit s :
  scrape_data w url_base table_name db_name csv_name user_pages max_limit s =
    let s1 := set_pending [] (set_conn_open true s) in
    if create_table_ok w then
      let s2 := after_pages w url_base s1 (actual_pages user_pages max_limit) in
      if read_sql_ok w then
        let df := table s2 ++ pending s2 in
        let s3 := set_pending [] (set_conn_open false s2) in
        if empty df then (Return df, s3)
        else (Return (drop_duplicates df),
              set_fs (<[csv_name := drop_duplicates df]> (fs s3)) s3)
      else (Raise DatabaseError, s2)
    else (Raise SqliteError, s1).
Proof.
  unfold scrape_data, sqlite3_connect, execute_create, read_sql_query.
  unfold mbind, py_bind, modify; simpl.
  destruct (create_table_ok w); simpl; [|reflexivity].
  rewrite scrape_pages_run.
  destruct (read_sql_ok w); simpl; [|reflexivity].
  unfold export. destruct (empty _); reflexivity.
Qed.

(** ** The page loop: what it leaves alone and what it adds *)

Lemma elem_of_range lo hi i : i ∈ Py.range lo hi ↔ lo ≤ i < hi.
Proof.
  unfold Py.range. rewrite list_elem_of_fmap. split.
  - intros (k & -> & Hk). apply elem_of_seq in Hk. lia.
  - intros H. exists (Z.to_nat (i - lo)). split; [lia|].
    apply elem_of_seq. lia.
Qed.

Lemma length_range lo hi : length (Py.range lo hi) = Z.to_nat (hi - lo).
Proof. unfold Py.range. by rewrite length_fmap, length_seq. Qed.

Section PageLoop.

Context (w : world) (url_base : string).

Lemma after_page_requests s index :
  requests (after_page w url_base s index) = requests s ++ [(url_base, index)].
Proof. by page_cases. Qed.

Lemma after_page_conn_open s index :
  conn_open (after_page w url_base s index) = conn_open s.
Proof. by page_cases. Qed.

Lemma after_page_fs s index :
  fs (after_page w url_base s index) = fs s.
Proof. by page_cases. Qed.

Lemma foldl_after_page_requests (l : list Z) : ∀ s,
  requests (foldl (after_page w url_base) s l) = requests s ++ ((λ i, (url_base, i)) <$> l).
Proof.
  induction l as [|i l IH]; intros s; simpl.
  - by rewrite app_nil_r.
  - rewrite IH, after_page_requests. by rewrite <- app_assoc.
Qed.

Lemma foldl_after_page_conn_open (l : list Z) : ∀ s,
  conn_open (foldl (after_page w url_base) s l) = conn_open s.
Proof.
  induction l as [|i l IH]; intros s; simpl; [reflexivity|].
  by rewrite IH, after_page_conn_open.
Qed.

Lemma foldl_after_page_fs (l : list Z) : ∀ s,
  fs (foldl (after_page w url_base) s l) = fs s.
Proof.
  induction l as [|i l IH]; intros s; simpl; [reflexivity|].
  by rewrite IH, after_page_fs.
Qed.

(** Committed rows stay committed. *)
Lemma after_page_table s index r :
  r ∈ table s → r ∈ table (after_page w url_base s index).
Proof.
  intros Hr. page_cases; simpl; try exact Hr.
  apply elem_of_app. by left.
Qed.

Lemma foldl_after_page_table (l : list Z) r : ∀ s,
  r ∈ table s → r ∈ table (foldl (after_page w url_base) s l).
Proof.
  induction l as [|i l IH]; intros s Hr; simpl; [exact Hr|].
  apply IH. by apply after_page_table.
Qed.

(** A page whose commit goes through has all its rows committed. *)
Lemma after_page_commit_ok s index r :
  commit w index = CommitOk → r ∈ page_rows w url_base index →
  r ∈ table (after_page w url_base s index).
Proof.
  unfold page_rows, after_page. intros Hc Hr.
  destruct (page w url_base index) as [cs|]; [|by apply elem_of_nil in Hr].
  rewrite Hc; simpl. rewrite !elem_of_app. auto.
Qed.

End PageLoop.

(** ** C1: the number of pages fetched *)

(** The requests of one call, whatever its arguments: one GET per index of
    [range(1, min(user_pages, max_limit) + 1)], in that order. *)
Lemma scrape_data_requests w url_base table_name db_name csv_name user_pages max_limit s :
  create_table_ok w = true →
  requests (scrape_data w url_base table_name db_name csv_name user_pages max_limit s).2 =
    requests s ++
    ((λ i, (url_base, i)) <$> Py.range 1 (Z.min user_pages max_limit + 1)).
Proof.
  intros Hc. rewrite scrape_data_run, Hc. cbv zeta.
  unfold after_pages, actual_pages.
  destruct (read_sql_ok w); [destruct (empty _)|]; simpl;
    by rewrite foldl_after_page_requests.
Qed.

(** C1. For each of the four categories and each position of the slider,
    from 1 to 120, a session whose table could be created computes its
    page count as the minimum of the request and the cap of the category,
    and sends one GET per index from 1 to that count, in order, and no
    other: the count of GETs sent is that minimum. *)
Theorem scrape_fetches_min_pages (w : world) (cat : category) (Pages : Z) (s : session) :
  1 ≤ Pages ≤ 120 →
  create_table_ok w = true →
  let n := Z.min Pages (cap_of cat) in
  let s' := (scrape_category w cat Pages s).2 in
  actual_pages Pages (cap_of cat) = n ∧
  requests s' = requests s ++ ((λ i, (url_of cat, i)) <$> Py.range 1 (n + 1)) ∧
  (∀ i, 1 ≤ i ≤ n ↔ (url_of cat, i) ∈ ((λ i, (url_of cat, i)) <$> Py.range 1 (n + 1))) ∧
  Z.of_nat (length (requests s')) = Z.of_nat (length (requests s)) + n.
Proof.
  intros HP Hc n s'. split; [reflexivity|].
  assert (Hreq : requests s' =
      requests s ++ ((λ i, (url_of cat, i)) <$> Py.range 1 (n + 1))).
  { unfold s', scrape_category. by apply scrape_data_requests. }
  split; [exact Hreq|]. split.
  - intros i. rewrite list_elem_of_fmap. split.
    + intros Hi. exists i. split; [reflexivity|]. apply elem_of_range. lia.
    + intros (j & Hj & Hin). injection Hj as ->. apply elem_of_range in Hin. lia.
  - rewrite Hreq, length_app, length_fmap, length_range.
    assert (1 ≤ n) by (unfold n; destruct cat; simpl; lia). lia.
Qed.

(** Scenario A: cap 8, request 120, eight GETs. *)
Lemma scrape_fetches_min_pages_witness :
  1 ≤ 120 ≤ 120 ∧ create_table_ok Sample.page_2_down = true ∧
  Z.of_nat (length (requests (scrape_category Sample.page_2_down ChildrenShoes 120 Sample.fresh).2)) = 8.
Proof.
  split; [lia|]. split; [reflexivity|].
  destruct (scrape_fetches_min_pages Sample.page_2_down ChildrenShoes 120 Sample.fresh)
    as (_ & _ & _ & H); [lia|reflexivity|].
  exact H.
Defined.

(** ** [drop_duplicates] *)

Lemma elem_of_drop_duplicates_from (l : list row) : ∀ seen r,
  r ∈ drop_duplicates_from seen l ↔ r ∈ l ∧ r ∉ seen.
Proof.
  induction l as [|x l IH]; intros seen r; simpl.
  - rewrite elem_of_nil. tauto.
  - destruct (decide (x ∈ seen)) as [Hx|Hx].
    + rewrite IH, elem_of_cons. split; [tauto|].
      intros [[->|Hr] Hn]; [contradiction|tauto].
    + rewrite !elem_of_cons, IH, not_elem_of_cons.
      destruct (decide (r = x)) as [->|Hne]; tauto.
Qed.

Lemma elem_of_drop_duplicates (l : list row) r : r ∈ drop_duplicates l ↔ r ∈ l.
Proof.
  unfold drop_duplicates. rewrite elem_of_drop_duplicates_from, elem_of_nil. tauto.
Qed.

Lemma NoDup_drop_duplicates_from (l : list row) : ∀ seen,
  NoDup (drop_duplicates_from seen l).
Proof.
  induction l as [|x l IH]; intros seen; simpl; [constructor|].
  destruct (decide (x ∈ seen)); [apply IH|].
  constructor; [|apply IH].
  rewrite elem_of_drop_duplicates_from, not_elem_of_cons. tauto.
Qed.

Lemma sublist_drop_duplicates_from (l : list row) : ∀ seen,
  sublist (drop_duplicates_from seen l) l.
Proof.
  induction l as [|x l IH]; intros seen; simpl; [constructor|].
  destruct (decide (x ∈ seen)); [apply sublist_cons|apply sublist_skip]; apply IH.
Qed.

(** A table with no two equal rows goes through unchanged. *)
Lemma drop_duplicates_from_NoDup (l : list row) : ∀ seen,
  NoDup l → (∀ r, r ∈ l → r ∉ seen) → drop_duplicates_from seen l = l.
Proof.
  induction l as [|x l IH]; intros seen Hnd Hseen; simpl; [reflexivity|].
  apply NoDup_cons in Hnd as [Hx Hnd].
  destruct (decide (x ∈ seen)) as [Hin|_].
  - exfalso. apply (Hseen x); [left|exact Hin].
  - f_equal. apply IH; [exact Hnd|].
    intros r Hr. rewrite not_elem_of_cons. split.
    + intros ->. contradiction.
    + apply Hseen. by right.
Qed.

(** Rows are met from the first to the last: the last row of a table is
    kept when no row before it equals it, and dropped otherwise. *)
Lemma drop_duplicates_from_snoc (l : list row) r : ∀ seen,
  drop_duplicates_from seen (l ++ [r]) =
    if decide (r ∈ seen ∨ r ∈ l) then drop_duplicates_from seen l
    else drop_duplicates_from seen l ++ [r].
Proof.
  induction l as [|x l IH]; intros seen; simpl.
  - destruct (decide (r ∈ seen)) as [Hr|Hr].
    + rewrite decide_True; [reflexivity|by left].
    + rewrite decide_False; [reflexivity|].
      intros [?|Hn]; [contradiction|by apply elem_of_nil in Hn].
  - destruct (decide (x ∈ seen)) as [Hx|Hx]; rewrite IH.
    + destruct (decide (r ∈ seen ∨ r ∈ l)) as [H|H].
      * rewrite decide_True; [reflexivity|]. rewrite elem_of_cons. tauto.
      * rewrite decide_False; [reflexivity|]. rewrite elem_of_cons.
        intros [?|[->|?]]; tauto.
    + destruct (decide (r ∈ x :: seen ∨ r ∈ l)) as [H|H].
      * rewrite decide_True; [reflexivity|].
        rewrite !elem_of_cons in *. tauto.
      * rewrite decide_False; [reflexivity|].
        rewrite !elem_of_cons in *. tauto.
Qed.

Lemma drop_duplicates_snoc (l : list row) r :
  drop_duplicates (l ++ [r]) =
    if decide (r ∈ l) then drop_duplicates l else drop_duplicates l ++ [r].
Proof.
  unfold drop_duplicates. rewrite drop_duplicates_from_snoc.
  destruct (decide (r ∈ l)) as [H|H].
  - rewrite decide_True; [reflexivity|by right].
  - rewrite decide_False; [reflexivity|].
    intros [Hn|?]; [by apply elem_of_nil in Hn|contradiction].
Qed.

Lemma drop_duplicates_idemp (l : list row) :
  drop_duplicates (drop_duplicates l) = drop_duplicates l.
Proof.
  unfold drop_duplicates at 1. apply drop_duplicates_from_NoDup.
  - apply NoDup_drop_duplicates_from.
  - intros r _. apply not_elem_of_nil.
Qed.

Lemma drop_duplicates_nil_inv (l : list row) : drop_duplicates l = [] → l = [].
Proof.
  destruct l as [|x l]; [reflexivity|]. unfold drop_duplicates.
  cbn [drop_duplicates_from]. rewrite decide_False by apply not_elem_of_nil.
  discriminate.
Qed.

Lemma empty_true (df : list row) : empty df = true ↔ df = [].
Proof. destruct df; simpl; split; congruence. Qed.

(** ** Rows of a page, card by card *)

Lemma elem_of_inserted w index pos c r :
  r ∈ inserted w index pos c ↔ extract c = Some r ∧ insert_ok w index pos = true.
Proof.
  unfold inserted. destruct (extract c) as [r'|].
  - destruct (insert_ok w index pos).
    + rewrite list_elem_of_singleton. split; [intros ->; auto|].
      intros [[= ->] _]. reflexivity.
    + rewrite elem_of_nil. split; [tauto|]. intros [_ [=]].
  - rewrite elem_of_nil. split; [tauto|]. intros [[=] _].
Qed.

Lemma elem_of_inserted_from w index (cs : list container) : ∀ pos r,
  r ∈ inserted_from w index pos cs ↔
  ∃ i c, cs !! i = Some c ∧ extract c = Some r ∧ insert_ok w index (pos + i) = true.
Proof.
  induction cs as [|c cs IH]; intros pos r; simpl.
  - rewrite elem_of_nil. split; [tauto|]. intros (i & c & [=] & _).
  - rewrite elem_of_app, elem_of_inserted, IH. split.
    + intros [[He Hi]|(i & c' & Hl & He & Hi)].
      * exists 0%nat, c. rewrite Nat.add_0_r. auto.
      * exists (S i), c'. rewrite Nat.add_succ_r. auto.
    + intros ([|i] & c' & Hl & He & Hi); simpl in Hl.
      * injection Hl as ->. rewrite Nat.add_0_r in Hi. auto.
      * right. exists i, c'. rewrite Nat.add_succ_r in Hi. auto.
Qed.

Lemma elem_of_page_rows w url_base index r :
  r ∈ page_rows w url_base index ↔
  ∃ cs i c, page w url_base index = Some cs ∧ cs !! i = Some c ∧
            extract c = Some r ∧ insert_ok w index i = true.
Proof.
  unfold page_rows. destruct (page w url_base index) as [cs|].
  - rewrite elem_of_inserted_from. split.
    + intros (i & c & ?). exists cs, i, c. tauto.
    + intros (cs' & i & c & [= <-] & ?). exists i, c. tauto.
  - rewrite elem_of_nil. split; [tauto|]. intros (? & ? & ? & [=] & _).
Qed.

(** The rows of a page of the range whose commit went through are in the
    table when the loop ends. *)
Lemma after_pages_committed w url_base s pages j r :
  1 ≤ j ≤ pages → commit w j = CommitOk → r ∈ page_rows w url_base j →
  r ∈ table (after_pages w url_base s pages).
Proof.
  intros Hj Hc Hr. unfold after_pages.
  assert (Hin : j ∈ Py.range 1 (pages + 1)) by (apply elem_of_range; lia).
  apply list_elem_of_split in Hin as (l1 & l2 & ->).
  rewrite foldl_app; simpl. apply foldl_after_page_table.
  by apply after_page_commit_ok.
Qed.

(** The committed table when the routine ends or is left by an exception
    after the loop. *)
Lemma scrape_data_table w url_base table_name db_name csv_name user_pages max_limit s :
  create_table_ok w = true →
  table (scrape_data w url_base table_name db_name csv_name user_pages max_limit s).2 =
    table (after_pages w url_base (set_pending [] (set_conn_open true s))
             (actual_pages user_pages max_limit)).
Proof.
  intros Hc. rewrite scrape_data_run, Hc. cbv zeta.
  destruct (read_sql_ok w); [destruct (empty _)|]; reflexivity.
Qed.

(** What the routine returns when nothing stops it. *)
Lemma scrape_data_returns w url_base table_name db_name csv_name user_pages max_limit s :
  create_table_ok w = true → read_sql_ok w = true →
  ∃ df, (scrape_data w url_base table_name db_name csv_name user_pages max_limit s).1
          = Return df ∧
        ∀ r, r ∈ df ↔
          r ∈ (let s2 := after_pages w url_base (set_pending [] (set_conn_open true s))
                           (actual_pages user_pages max_limit) in
               table s2 ++ pending s2).
Proof.
  intros Hc Hr. rewrite scrape_data_run, Hc, Hr. cbv zeta.
  destruct (empty _) eqn:He; eexists; (split; [reflexivity|]); intros r.
  - reflexivity.
  - apply elem_of_drop_duplicates.
Qed.

(** ** C3: a page that cannot be fetched *)

(** C3. When the fetch (or the parse) of page [k] of the range fails, the
    turn of that page does nothing but send its request; the loop goes on
    and ends without an exception; the pages after [k] are requested; and
    every row of a later page whose lookups and INSERT went through, and
    whose page was committed, is in the table at the end of the session,
    and in the table the routine returns when the final read goes through. *)
Theorem failed_fetch_does_not_stop_session
    (w : world) (url_base table_name db_name csv_name : string)
    (user_pages max_limit k : Z) (s : session) :
  create_table_ok w = true →
  1 ≤ k ≤ actual_pages user_pages max_limit →
  page w url_base k = None →
  let n := actual_pages user_pages max_limit in
  let run := scrape_data w url_base table_name db_name csv_name user_pages max_limit s in
  (∀ s0, scrape_page w url_base k s0 =
           (Return (), set_requests (requests s0 ++ [(url_base, k)]) s0)) ∧
  (∀ s0, (scrape_pages w url_base n s0).1 = Return ()) ∧
  (∀ j, k < j ≤ n → (url_base, j) ∈ requests run.2) ∧
  (∀ j cs i c r, k < j ≤ n →
     page w url_base j = Some cs → cs !! i = Some c →
     extract c = Some r → insert_ok w j i = true → commit w j = CommitOk →
     r ∈ table run.2 ∧
     (read_sql_ok w = true → ∃ df, run.1 = Return df ∧ r ∈ df)).
Proof.
  intros Hc Hk Hpage n run. split; [|split; [|split]].
  - intros s0. rewrite scrape_page_run. unfold after_page. by rewrite Hpage.
  - intros s0. by rewrite scrape_pages_run.
  - intros j Hj. unfold run. rewrite scrape_data_requests by done.
    apply elem_of_app. right. apply list_elem_of_fmap. exists j.
    split; [reflexivity|]. apply elem_of_range. unfold n, actual_pages in Hj. lia.
  - intros j cs i c r Hj Hcs Hi He Hins Hcommit.
    assert (Hr : r ∈ page_rows w url_base j).
    { apply elem_of_page_rows. exists cs, i, c. auto. }
    assert (Ht : r ∈ table run.2).
    { unfold run. rewrite scrape_data_table by done.
      apply (after_pages_committed _ _ _ _ j); [fold n; lia|done..]. }
    split; [exact Ht|]. intros Hread.
    destruct (scrape_data_returns w url_base table_name db_name csv_name
                user_pages max_limit s Hc Hread) as (df & Hdf & Hin).
    exists df. split; [exact Hdf|]. apply Hin. cbv zeta.
    apply elem_of_app. left.
    unfold run in Ht. by rewrite scrape_data_table in Ht.
Qed.

(** Page 2 of 3 is down: page 3 is requested and its row is committed. *)
Lemma failed_fetch_does_not_stop_session_witness :
  let w := Sample.page_2_down in
  let run := scrape_category w ChildrenShoes 3 Sample.fresh in
  create_table_ok w = true ∧
  1 ≤ 2 ≤ actual_pages 3 (cap_of ChildrenShoes) ∧
  page w (url_of ChildrenShoes) 2 = None ∧
  (url_of ChildrenShoes, 3) ∈ requests run.2 ∧
  Sample.shirt_row ∈ table run.2.
Proof.
  intros w run.
  assert (Hk : 1 ≤ 2 ≤ actual_pages 3 (cap_of ChildrenShoes)) by (vm_compute; split; discriminate).
  pose proof (failed_fetch_does_not_stop_session w (url_of ChildrenShoes)
                (table_of ChildrenShoes) (db_of ChildrenShoes) (csv_of ChildrenShoes)
                3 (cap_of ChildrenShoes) 2 Sample.fresh eq_refl Hk eq_refl) as H.
  cbv zeta in H. destruct H as (_ & _ & Hreq & Hrows).
  split; [reflexivity|]. split; [exact Hk|]. split; [reflexivity|].
  split.
  - apply Hreq. vm_compute; split; [reflexivity|discriminate].
  - apply (Hrows 3 [Sample.shirt] 0%nat Sample.shirt Sample.shirt_row);
      [vm_compute; split; [reflexivity|discriminate]|reflexivity..].
Defined.

(** ** The end of the session *)

Lemma read_back_run w url_base user_pages max_limit s :
  read_back w url_base user_pages max_limit s =
    let s1 := set_pending [] (set_conn_open true s) in
    if create_table_ok w then
      let s2 := after_pages w url_base s1 (actual_pages user_pages max_limit) in
      if read_sql_ok w then (Return (table s2 ++ pending s2), s2)
      else (Raise DatabaseError, s2)
    else (Raise SqliteError, s1).
Proof.
  unfold read_back, sqlite3_connect, execute_create, read_sql_query.
  unfold mbind, py_bind, modify; simpl.
  destruct (create_table_ok w); simpl; [|reflexivity].
  rewrite scrape_pages_run. destruct (read_sql_ok w); reflexivity.
Qed.

(** The routine is the read, then [conn.close()], then the export. *)
Lemma scrape_data_read_back w url_base table_name db_name csv_name user_pages max_limit
    s df s2 :
  read_back w url_base user_pages max_limit s = (Return df, s2) →
  df = table s2 ++ pending s2 ∧ fs s2 = fs s ∧
  scrape_data w url_base table_name db_name csv_name user_pages max_limit s =
    export csv_name df (set_pending [] (set_conn_open false s2)).
Proof.
  rewrite read_back_run, scrape_data_run. cbv zeta.
  destruct (create_table_ok w); [|discriminate].
  destruct (read_sql_ok w); [|discriminate].
  intros [= <- <-]. split; [reflexivity|]. split.
  - unfold after_pages. by rewrite foldl_after_page_fs.
  - unfold export. destruct (empty _); reflexivity.
Qed.

(** ** C10: an empty table is not exported *)

(** C10. When the table read at the end of the session is empty, the routine
    returns the empty table and the file system is the one the session
    started with: no file is written, and a file exported earlier keeps
    its content.  When the table read is not empty the file of the category
    is (over)written with the table without its duplicates.  So a file
    system that differs at the end means a non-empty table. *)
Theorem empty_table_is_not_exported
    (w : world) (url_base table_name db_name csv_name : string)
    (user_pages max_limit : Z) (s s2 : session) (df : list row) :
  read_back w url_base user_pages max_limit s = (Return df, s2) →
  let run := scrape_data w url_base table_name db_name csv_name user_pages max_limit s in
  (df = [] → run.1 = Return [] ∧ fs run.2 = fs s) ∧
  (df ≠ [] → run.1 = Return (drop_duplicates df) ∧
             fs run.2 = <[csv_name := drop_duplicates df]> (fs s)) ∧
  (fs run.2 ≠ fs s → df ≠ []).
Proof.
  intros Hread run.
  destruct (scrape_data_read_back w url_base table_name db_name csv_name
              user_pages max_limit s df s2 Hread) as (_ & Hfs & Hrun).
  assert (Hnil : df = [] → run.1 = Return [] ∧ fs run.2 = fs s).
  { intros ->. unfold run. rewrite Hrun. simpl. by rewrite Hfs. }
  split; [exact Hnil|]. split.
  - intros Hne. unfold run. rewrite Hrun. unfold export.
    destruct df as [|r df]; [done|]. simpl. by rewrite Hfs.
  - intros Hdiff ->. destruct Hnil as [_ Hsame]; done.
Qed.

(** Empty pages, and a file left by an earlier session: it is still there. *)
Lemma empty_table_is_not_exported_witness :
  let w := Sample.empty_pages in
  let run := scrape_category w ChildrenShoes 3 Sample.with_old_export in
  (read_back w (url_of ChildrenShoes) 3 (cap_of ChildrenShoes) Sample.with_old_export).1
    = Return [] ∧
  run.1 = Return [] ∧
  fs run.2 = {[ csv_of ChildrenShoes := [Sample.shirt_row] ]}.
Proof.
  intros w run.
  assert (Ho : (read_back w (url_of ChildrenShoes) 3 (cap_of ChildrenShoes)
                  Sample.with_old_export).1 = Return [])
    by (vm_compute; reflexivity).
  destruct (read_back w (url_of ChildrenShoes) 3 (cap_of ChildrenShoes)
              Sample.with_old_export) as [o s2] eqn:Hread.
  simpl in Ho. subst o. split; [reflexivity|].
  pose proof (empty_table_is_not_exported w (url_of ChildrenShoes)
                (table_of ChildrenShoes) (db_of ChildrenShoes) (csv_of ChildrenShoes)
                3 (cap_of ChildrenShoes) Sample.with_old_export s2 [] Hread) as H.
  cbv zeta in H. destruct H as (Hnil & _ & _).
  destruct (Hnil eq_refl) as [Hret Hfs]. split; [exact Hret|exact Hfs].
Defined.

(** ** C4: the export *)

(** C4 as stated fails on an empty table: the routine returns the empty
    table while the file of the category still holds the row of an earlier
    export. *)
Lemma export_skipped_on_empty_table :
  let run := scrape_category Sample.empty_pages ChildrenShoes 1 Sample.with_old_export in
  run.1 = Return [] ∧
  table run.2 = [] ∧
  fs run.2 !! csv_of ChildrenShoes = Some [Sample.shirt_row].
Proof. vm_compute. auto. Qed.

(** C4, amended. The table read at the end of the session is the whole
    table, as the connection sees it.  When it is not empty, the routine
    returns it without its duplicates and writes that same table to the
    file of the category.  A row is a duplicate when an equal row comes
    before it: the table returned has no two equal rows, holds the same rows
    as the table read, in the order they have there, and a row at the end
    of a table is kept exactly when no row before it equals it. *)
Theorem export_drops_duplicates_keeping_first
    (w : world) (url_base table_name db_name csv_name : string)
    (user_pages max_limit : Z) (s s2 : session) (df : list row) :
  read_back w url_base user_pages max_limit s = (Return df, s2) →
  df ≠ [] →
  let run := scrape_data w url_base table_name db_name csv_name user_pages max_limit s in
  let out := drop_duplicates df in
  df = table s2 ++ pending s2 ∧
  run.1 = Return out ∧
  fs run.2 !! csv_name = Some out ∧
  NoDup out ∧
  (∀ r, r ∈ out ↔ r ∈ df) ∧
  sublist out df ∧
  (∀ l r, drop_duplicates (l ++ [r]) =
            if decide (r ∈ l) then drop_duplicates l else drop_duplicates l ++ [r]) ∧
  (∀ r, drop_duplicates [r; r] = [r]).
Proof.
  intros Hread Hne run out.
  destruct (scrape_data_read_back w url_base table_name db_name csv_name
              user_pages max_limit s df s2 Hread) as (Hdf & Hfs & Hrun).
  assert (Hexp : run = (Return out, set_fs (<[csv_name := out]> (fs s2))
                                      (set_pending [] (set_conn_open false s2)))).
  { unfold run. rewrite Hrun. unfold export. destruct df; [done|reflexivity]. }
  split; [exact Hdf|]. split; [by rewrite Hexp|]. split.
  { rewrite Hexp. simpl. apply lookup_insert_eq. }
  split; [apply NoDup_drop_duplicates_from|].
  split; [apply elem_of_drop_duplicates|].
  split; [apply sublist_drop_duplicates_from|].
  split; [apply drop_duplicates_snoc|].
  intros r. unfold drop_duplicates. cbn [drop_duplicates_from].
  rewrite decide_False by apply not_elem_of_nil.
  rewrite decide_True by apply list_elem_of_here. reflexivity.
Qed.

(** Scenario C: the same row inserted by two pages, each with its commit:
    one row is exported. *)
Lemma export_drops_duplicates_keeping_first_witness :
  let w := Sample.same_card_everywhere in
  let run := scrape_category w ChildrenShoes 2 Sample.fresh in
  (read_back w (url_of ChildrenShoes) 2 (cap_of ChildrenShoes) Sample.fresh).1
    = Return [Sample.shirt_row; Sample.shirt_row] ∧
  [Sample.shirt_row; Sample.shirt_row] ≠ [] ∧
  run.1 = Return [Sample.shirt_row] ∧
  fs run.2 !! csv_of ChildrenShoes = Some [Sample.shirt_row].
Proof.
  intros w run.
  assert (Ho : (read_back w (url_of ChildrenShoes) 2 (cap_of ChildrenShoes)
                  Sample.fresh).1 = Return [Sample.shirt_row; Sample.shirt_row])
    by (vm_compute; reflexivity).
  destruct (read_back w (url_of ChildrenShoes) 2 (cap_of ChildrenShoes) Sample.fresh)
    as [o s2] eqn:Hread.
  simpl in Ho. subst o. split; [reflexivity|].
  assert (Hne : [Sample.shirt_row; Sample.shirt_row] ≠ []) by discriminate.
  split; [exact Hne|].
  pose proof (export_drops_duplicates_keeping_first w (url_of ChildrenShoes)
                (table_of ChildrenShoes) (db_of ChildrenShoes) (csv_of ChildrenShoes)
                2 (cap_of ChildrenShoes) Sample.fresh s2 _ Hread Hne) as H.
  cbv zeta in H. destruct H as (_ & Hret & Hfile & _ & _ & _ & _ & Htwice).
  rewrite Htwice in Hret, Hfile. split; [exact Hret|exact Hfile].
Defined.

(** ** C7: exporting twice *)

(** C7. Dropping the duplicates of a table that went through
    [drop_duplicates] gives that table back; and exporting the table an
    export returned returns it again and leaves the state, the file
    included, as the first export left it. *)
Theorem export_idempotent (csv_name : string) (T : list row) (s : session) :
  drop_duplicates (drop_duplicates T) = drop_duplicates T ∧
  (export csv_name T ≫= export csv_name) s = export csv_name T s.
Proof.
  split; [apply drop_duplicates_idemp|].
  unfold mbind, py_bind, export.
  destruct T as [|r T]; [reflexivity|].
  cbn [empty negb]. unfold to_csv, modify, mbind, py_bind, mret, py_ret.
  destruct (empty (drop_duplicates (r :: T))) eqn:He.
  - apply empty_true, drop_duplicates_nil_inv in He. discriminate.
  - cbn [negb]. rewrite drop_duplicates_idemp.
    unfold set_fs; simpl. by rewrite insert_insert_eq.
Qed.

(** ** C5: errors of the store *)

(** C5 as stated fails for the INSERT: in a world where every INSERT (and
    every commit) fails, the lookups of the card go through, the INSERT is
    refused, and the routine still returns, with the empty table. *)
Lemma insert_error_is_caught :
  let w := Sample.store_refuses_rows in
  let run := scrape_category w ChildrenShoes 1 Sample.fresh in
  extract Sample.shirt = Some Sample.shirt_row ∧
  execute_insert w 1 0 Sample.shirt_row Sample.fresh = (Raise SqliteError, Sample.fresh) ∧
  run.1 = Return [] ∧
  requests run.2 = [(url_of ChildrenShoes, 1)].
Proof. vm_compute. auto. Qed.

(** C5, amended. An error of the schema creation is not handled: it leaves
    the routine as an exception, before any page is requested and with no
    file written.  An error of an INSERT is caught by the [try] of its card:
    the row is not added, the state is as it was and the loop over the
    cards goes on.  An error of a commit is caught by the [try] of its page.
    So with the schema created and the final read going through, the
    routine returns a table whatever the INSERTs and the commits answer. *)
Theorem schema_error_propagates_insert_error_is_caught
    (w : world) (url_base table_name db_name csv_name : string)
    (user_pages max_limit : Z) (s : session) :
  let run := scrape_data w url_base table_name db_name csv_name user_pages max_limit s in
  (create_table_ok w = false →
     run.1 = Raise SqliteError ∧ requests run.2 = requests s ∧ fs run.2 = fs s ∧
     table run.2 = table s) ∧
  (∀ index pos c s0, insert_ok w index pos = false →
     try_except_pass (scrape_container w index pos c) s0 = (Return (), s0)) ∧
  (∀ index s0, (scrape_page w url_base index s0).1 = Return ()) ∧
  (create_table_ok w = true → read_sql_ok w = true → ∃ df, run.1 = Return df).
Proof.
  intros run. split; [|split; [|split]].
  - intros Hc. unfold run. rewrite scrape_data_run, Hc. auto.
  - intros index pos c s0 Hi. rewrite try_scrape_container.
    unfold inserted. rewrite Hi. destruct (extract c); rewrite app_nil_r;
      unfold set_pending; by rewrite session_eta.
  - intros index s0. by rewrite scrape_page_run.
  - intros Hc Hr.
    destruct (scrape_data_returns w url_base table_name db_name csv_name
                user_pages max_limit s Hc Hr) as (df & Hdf & _).
    by exists df.
Qed.

Lemma schema_error_propagates_insert_error_is_caught_witness :
  (create_table_ok Sample.no_schema = false ∧
   (scrape_category Sample.no_schema ChildrenShoes 3 Sample.fresh).1 = Raise SqliteError ∧
   requests (scrape_category Sample.no_schema ChildrenShoes 3 Sample.fresh).2 = []) ∧
  (insert_ok Sample.store_refuses_rows 1 0 = false ∧
   create_table_ok Sample.store_refuses_rows = true ∧
   read_sql_ok Sample.store_refuses_rows = true ∧
   ∃ df, (scrape_category Sample.store_refuses_rows ChildrenShoes 3 Sample.fresh).1
           = Return df).
Proof.
  split.
  - pose proof (schema_error_propagates_insert_error_is_caught Sample.no_schema
                  (url_of ChildrenShoes) (table_of ChildrenShoes) (db_of ChildrenShoes)
                  (csv_of ChildrenShoes) 3 (cap_of ChildrenShoes) Sample.fresh) as H.
    cbv zeta in H. destruct H as (H & _).
    destruct (H eq_refl) as (Hraise & Hreq & _).
    split; [reflexivity|]. split; [exact Hraise|exact Hreq].
  - pose proof (schema_error_propagates_insert_error_is_caught Sample.store_refuses_rows
                  (url_of ChildrenShoes) (table_of ChildrenShoes) (db_of ChildrenShoes)
                  (csv_of ChildrenShoes) 3 (cap_of ChildrenShoes) Sample.fresh) as H.
    cbv zeta in H. destruct H as (_ & _ & _ & H).
    split; [reflexivity|]. split; [reflexivity|]. split; [reflexivity|].
    exact (H eq_refl eq_refl).
Defined.

(** ** C8: closing the connection *)

(** C8 as stated fails when the final read fails: the exception leaves the
    routine with the connection open. *)
Lemma connection_left_open_when_read_fails :
  let run := scrape_category Sample.no_read_back ChildrenShoes 1 Sample.fresh in
  run.1 = Raise DatabaseError ∧ conn_open run.2 = true.
Proof. vm_compute. auto. Qed.

(** C8, amended. The connection opened at the start of the session is
    closed at its end exactly when the schema creation and the final read
    both go through, whatever the page fetches, the INSERTs and the commits
    answer; when the schema creation or the final read fails, the exception
    leaves the routine with the connection open. *)
Theorem connection_closed_unless_schema_or_read_fails
    (w : world) (url_base table_name db_name csv_name : string)
    (user_pages max_limit : Z) (s : session) :
  conn_open (scrape_data w url_base table_name db_name csv_name user_pages max_limit s).2
    = negb (create_table_ok w && read_sql_ok w).
Proof.
  rewrite scrape_data_run. cbv zeta.
  destruct (create_table_ok w); [|reflexivity].
  destruct (read_sql_ok w); simpl.
  - destruct (empty _); reflexivity.
  - unfold after_pages. by rewrite foldl_after_page_conn_open.
Qed.

(** ** C2: a card with a missing element *)

(** C2 as stated fails for the [src] attribute: [.get('src')] answers [None]
    for an [img] element without it and raises nothing, so the row is
    inserted, with a null [image_link], committed and exported. *)
Lemma card_without_src_is_inserted :
  let run := scrape_category Sample.page_with_no_src ChildrenShoes 1 Sample.fresh in
  card_img Sample.no_src = Some None ∧
  table run.2 = [Row "Sandales" "3000" "Thies" None] ∧
  run.1 = Return [Row "Sandales" "3000" "Thies" None].
Proof. vm_compute. auto. Qed.

Lemma inserted_from_app w index (cs1 cs2 : list container) : ∀ pos,
  inserted_from w index pos (cs1 ++ cs2) =
    inserted_from w index pos cs1 ++ inserted_from w index (pos + length cs1) cs2.
Proof.
  induction cs1 as [|c cs1 IH]; intros pos; simpl.
  - by rewrite Nat.add_0_r.
  - rewrite IH, Nat.add_succ_r. by rewrite <- app_assoc.
Qed.

(** C2, amended. When one of the elements the lookups go through is not in
    the card (the description, the price, the location or the [span] in it,
    the [img]), the lookups raise before the INSERT is reached: the state is
    untouched, so no row is inserted, and the [try] of the card ends
    normally.  The cards before and after it on the page are handled as
    they are without it: the loop over the page is the loop over the cards
    before, then the loop over the cards after.  A card that has all five
    elements but no [src] on its [img] is not skipped: its row goes to the
    INSERT with a null [image_link]. *)
Theorem missing_element_skips_container
    (w : world) (index : Z) (pos : nat) (c : container)
    (cs1 cs2 : list container) (s : session) :
  card_description c = None ∨ card_price c = None ∨ card_location c = None ∨
    card_location c = Some None ∨ card_img c = None →
  scrape_container w index pos c s = (Raise AttributeError, s) ∧
  try_except_pass (scrape_container w index pos c) s = (Return (), s) ∧
  for_containers w index pos (cs1 ++ c :: cs2) s =
    (for_containers w index pos cs1;;
     for_containers w index (pos + length cs1 + 1) cs2) s ∧
  inserted_from w index pos (cs1 ++ c :: cs2) =
    inserted_from w index pos cs1 ++ inserted_from w index (pos + length cs1 + 1) cs2 ∧
  (∀ t p a s0,
     scrape_container w index pos (Container (Some t) (Some p) (Some (Some a)) (Some None)) s0 =
       execute_insert w index pos
         (Row (Py.strip t) (Py.replace (Py.replace p "CFA" "") " " "") (Py.strip a) None) s0).
Proof.
  intros Hmiss.
  assert (He : extract c = None).
  { unfold extract. destruct c as [[t|] [p|] [[a|]|] [i|]]; simpl in *;
      try reflexivity; destruct Hmiss as [H|[H|[H|[H|H]]]]; discriminate. }
  assert (Hins : inserted w index pos c = []) by (unfold inserted; by rewrite He).
  assert (Hrows : inserted_from w index pos (cs1 ++ c :: cs2) =
    inserted_from w index pos cs1 ++ inserted_from w index (pos + length cs1 + 1) cs2).
  { rewrite inserted_from_app. simpl. f_equal.
    assert (Hc : inserted w index (pos + length cs1) c = [])
      by (unfold inserted; by rewrite He).
    rewrite Hc. simpl. f_equal. lia. }
  split; [by rewrite scrape_container_extract, He|].
  split.
  { rewrite try_scrape_container, Hins, app_nil_r.
    unfold set_pending. by rewrite session_eta. }
  split; [|split; [exact Hrows|]].
  - unfold mbind, py_bind. rewrite !for_containers_run, Hrows.
    unfold set_pending; simpl. by rewrite app_assoc.
  - intros t p a s0. reflexivity.
Qed.

(** Scenario B: three cards in order and one without its price: three rows. *)
Lemma missing_element_skips_container_witness :
  let w := Sample.page_with_no_price in
  card_price Sample.no_price = None ∧
  try_except_pass (scrape_container w 1 1 Sample.no_price) Sample.fresh
    = (Return (), Sample.fresh) ∧
  inserted_from w 1 0 ([Sample.shirt] ++ Sample.no_price :: [Sample.shirt; Sample.shirt])
    = [Sample.shirt_row; Sample.shirt_row; Sample.shirt_row].
Proof.
  intros w. split; [reflexivity|].
  destruct (missing_element_skips_container w 1 1 Sample.no_price [] [] Sample.fresh)
    as (_ & Htry & _); [right; left; reflexivity|].
  split; [exact Htry|].
  destruct (missing_element_skips_container w 1 0 Sample.no_price
              [Sample.shirt] [Sample.shirt; Sample.shirt] Sample.fresh)
    as (_ & _ & _ & Hrows & _); [right; left; reflexivity|].
  rewrite Hrows. reflexivity.
Defined.

(** ** [str.replace] with nothing put in *)

Lemma startswith_chars (old : string) : ∀ s i ch,
  Py.startswith s old = true → (i < String.length old)%nat →
  list_ascii_of_string s !! i = Some ch → ch ∈ list_ascii_of_string old.
Proof.
  induction old as [|a old IH]; intros s i ch Hs Hi Hl; simpl in Hi; [lia|].
  destruct s as [|b s]; simpl in Hs; [discriminate|].
  destruct (decide (a = b)) as [->|]; [|discriminate]. simpl.
  destruct i as [|i]; simpl in Hl.
  - injection Hl as ->. left.
  - right. apply (IH s i); [done|lia|done].
Qed.

(** What is taken out is made of characters of [old]: the other characters
    stay, in their order. *)
Lemma filter_replace_from (old : string) : old ≠ EmptyString → ∀ s skip,
  (∀ i ch, (i < skip)%nat → list_ascii_of_string s !! i = Some ch → ch ∈ list_ascii_of_string old) →
  filter (λ ch, ch ∉ list_ascii_of_string old) (list_ascii_of_string (Py.replace_from skip old "" s)) =
  filter (λ ch, ch ∉ list_ascii_of_string old) (list_ascii_of_string s).
Proof.
  intros Hold. induction s as [|c s IH]; intros skip Hskip; [reflexivity|].
  destruct skip as [|k]; cbn [Py.replace_from].
  - destruct (Py.startswith (String c s) old) eqn:Hs.
    + change ("" +:+ ?x) with x.
      assert (Hc : c ∈ list_ascii_of_string old).
      { apply (startswith_chars old (String c s) 0 c Hs); [|reflexivity].
        destruct old; [done|simpl; lia]. }
      cbn [list_ascii_of_string]. rewrite (filter_cons_False _ c) by tauto.
      apply IH. intros i ch Hi Hl.
      apply (startswith_chars old (String c s) (S i) ch Hs); [lia|exact Hl].
    + cbn [list_ascii_of_string]. rewrite !filter_cons.
      rewrite IH by (intros; lia). reflexivity.
  - cbn [list_ascii_of_string].
    assert (Hc : c ∈ list_ascii_of_string old) by (apply (Hskip 0%nat c); [lia|reflexivity]).
    rewrite (filter_cons_False _ c) by tauto.
    apply IH. intros i ch Hi Hl. apply (Hskip (S i) ch); [lia|exact Hl].
Qed.

Lemma filter_replace (old s : string) : old ≠ EmptyString →
  filter (λ ch, ch ∉ list_ascii_of_string old) (list_ascii_of_string (Py.replace s old "")) =
  filter (λ ch, ch ∉ list_ascii_of_string old) (list_ascii_of_string s).
Proof. intros Hold. apply filter_replace_from; [done|]. intros; lia. Qed.

(** Nothing is added and nothing changes place. *)
Lemma sublist_replace_from (old : string) : ∀ s skip,
  sublist (list_ascii_of_string (Py.replace_from skip old "" s)) (list_ascii_of_string s).
Proof.
  induction s as [|c s IH]; intros skip; [constructor|].
  destruct skip as [|k]; cbn [Py.replace_from list_ascii_of_string].
  - destruct (Py.startswith (String c s) old).
    + change ("" +:+ ?x) with x. apply sublist_cons, IH.
    + cbn [list_ascii_of_string]. apply sublist_skip, IH.
  - apply sublist_cons, IH.
Qed.

(** No space is left by [.replace(' ', '')]. *)
Lemma replace_space_from : ∀ s skip,
  " "%char ∉ list_ascii_of_string (Py.replace_from skip " " "" s).
Proof.
  induction s as [|c s IH]; intros skip; [apply not_elem_of_nil|].
  destruct skip as [|k]; cbn [Py.replace_from]; [|apply IH].
  cbn [Py.startswith]. destruct (decide (" "%char = c)) as [<-|Hne].
  - destruct s; apply IH.
  - cbn [list_ascii_of_string]. apply not_elem_of_cons. split; [exact Hne|apply IH].
Qed.

Lemma filter_implied {A} (P Q : A → Prop) `{∀ x, Decision (P x)} `{∀ x, Decision (Q x)}
    (l : list A) :
  (∀ x, Q x → P x) → filter Q (filter P l) = filter Q l.
Proof.
  intros HQP. induction l as [|x l IH]; [reflexivity|].
  rewrite !filter_cons. destruct (decide (P x)) as [HP|HP].
  - rewrite filter_cons. destruct (decide (Q x)); by rewrite IH.
  - rewrite decide_False by (intros HQ; apply HP, HQP, HQ). exact IH.
Qed.

(** ** C6: the price stored *)

(** C6 as stated fails for white space other than the space character: a
    line feed around the price text is stored with the digits. *)
Lemma price_keeps_line_feed :
  let w := Sample.same_card_everywhere in
  let stored := String "010" "3000" +:+ String "010" "" in
  pending (for_containers w 1 0 [Sample.price_on_two_lines] Sample.fresh).2
    = [Row "Sandales" stored "Thies" (Some "https://static.coinafrique.com/2.jpg")] ∧
  "010"%char ∈ list_ascii_of_string stored ∧
  Py.isspace "010" = true.
Proof.
  split; [reflexivity|]. split; [|reflexivity]. vm_compute. left.
Qed.

(** C6, amended. For a card whose lookups all go through, the price stored
    is the raw price text from which the occurrences of [CFA], met from the
    left, are taken out, and then every space character (U+0020); it is a
    string, and nothing converts it to a number.  It holds no space
    character; it is made of characters of the raw text in their order;
    and every character of the raw text that is not a space, a [C], an [F]
    or an [A] (a digit, a line feed, a tab) is in it. *)
Theorem stored_price_strips_marker_and_spaces
    (w : world) (index : Z) (pos : nat) (c : container) (r : row) (s : session) :
  extract c = Some r →
  ∃ raw : string,
    card_price c = Some raw ∧
    price r = Py.replace (Py.replace raw "CFA" "") " " "" ∧
    (insert_ok w index pos = true →
       scrape_container w index pos c s =
         (Return (), set_pending (pending s ++ [r]) s)) ∧
    ((" " : ascii) ∉ list_ascii_of_string (price r)) ∧
    sublist (list_ascii_of_string (price r)) (list_ascii_of_string raw) ∧
    filter (λ ch, ch ∉ list_ascii_of_string " CFA") (list_ascii_of_string (price r)) =
      filter (λ ch, ch ∉ list_ascii_of_string " CFA") (list_ascii_of_string raw).
Proof.
  intros He. rewrite scrape_container_extract, He. unfold extract in He.
  destruct c as [[t|] [raw|] [[a|]|] [i|]]; simpl in He; try discriminate.
  injection He as <-. exists raw. cbn [card_price price].
  split; [reflexivity|]. split; [reflexivity|]. split.
  { intros Hi. unfold execute_insert. by rewrite Hi. }
  split; [apply replace_space_from|]. split.
  - etransitivity; apply sublist_replace_from.
  - rewrite <- (filter_implied (λ ch, ch ∉ list_ascii_of_string " ") _ (list_ascii_of_string (Py.replace _ " " ""))).
    2:{ intros ch Hch Hin. apply Hch. apply list_elem_of_singleton in Hin as ->. left. }
    rewrite filter_replace by discriminate.
    rewrite filter_implied.
    2:{ intros ch Hch Hin. apply Hch. apply list_elem_of_singleton in Hin as ->. left. }
    rewrite <- (filter_implied (λ ch, ch ∉ list_ascii_of_string "CFA") _ (list_ascii_of_string (Py.replace _ "CFA" ""))).
    2:{ intros ch Hch Hin. apply Hch. by right. }
    rewrite filter_replace by discriminate.
    apply filter_implied. intros ch Hch Hin. apply Hch. by right.
Qed.

Lemma stored_price_strips_marker_and_spaces_witness :
  extract Sample.shirt = Some Sample.shirt_row ∧
  price Sample.shirt_row = Py.replace (Py.replace "12 500 CFA" "CFA" "") " " "" ∧
  (" " : ascii) ∉ list_ascii_of_string (price Sample.shirt_row).
Proof.
  split; [reflexivity|].
  destruct (stored_price_strips_marker_and_spaces Sample.same_card_everywhere 1 0
              Sample.shirt Sample.shirt_row Sample.fresh eq_refl)
    as (raw & Hraw & Hprice & _ & Hspace & _).
  injection Hraw as <-. split; [exact Hprice|exact Hspace].
Defined.

(** ** The dashboard reader *)

Lemma elem_of_distinct_from (col : list (option string)) : ∀ seen v,
  v ∈ Dashboard.distinct_from seen col ↔ Some v ∈ col ∧ v ∉ seen.
Proof.
  induction col as [|[x|] col IH]; intros seen v; simpl.
  - rewrite !elem_of_nil. tauto.
  - destruct (decide (x ∈ seen)) as [Hx|Hx].
    + rewrite IH, elem_of_cons. split; [tauto|].
      intros [[[= ->]|Hv] Hn]; [contradiction|tauto].
    + rewrite !elem_of_cons, IH, not_elem_of_cons.
      destruct (decide (v = x)) as [->|Hne]; [tauto|].
      split; [tauto|]. intros [[[= ?]|?] ?]; [contradiction|tauto].
  - rewrite IH, elem_of_cons. split; [tauto|]. intros [[[=]|?] ?]. tauto.
Qed.

(** The sort of the bars keeps the bars and puts them in order. *)
Lemma insert_bar_Permutation (bar : string * nat) (bars : list (string * nat)) :
  Dashboard.insert_bar bar bars ≡ₚ bar :: bars.
Proof.
  induction bars as [|b bars IH]; simpl; [reflexivity|].
  destruct (decide (Dashboard.more_frequent b bar)); [|reflexivity].
  rewrite IH. apply Permutation_swap.
Qed.

Lemma sort_bars_Permutation (bars : list (string * nat)) :
  Dashboard.sort_bars bars ≡ₚ bars.
Proof.
  unfold Dashboard.sort_bars.
  assert (H : ∀ acc, foldl (λ sorted bar, Dashboard.insert_bar bar sorted) acc bars
                       ≡ₚ acc ++ bars).
  { induction bars as [|b bars IH]; intros acc; simpl.
    - by rewrite app_nil_r.
    - rewrite IH, insert_bar_Permutation. apply Permutation_middle. }
  apply (H []).
Qed.

Lemma insert_bar_sorted (bar : string * nat) (bars : list (string * nat)) :
  StronglySorted Dashboard.more_frequent bars →
  StronglySorted Dashboard.more_frequent (Dashboard.insert_bar bar bars).
Proof.
  induction 1 as [|b bars Hs IH Hb]; simpl.
  - constructor; constructor.
  - destruct (decide (Dashboard.more_frequent b bar)) as [Hle|Hgt].
    + constructor; [exact IH|].
      rewrite insert_bar_Permutation. by constructor.
    + unfold Dashboard.more_frequent in Hgt.
      constructor; [by constructor|]. constructor.
      * unfold Dashboard.more_frequent. lia.
      * eapply Forall_impl; [exact Hb|].
        unfold Dashboard.more_frequent. intros x Hx. simpl in Hx. lia.
Qed.

Lemma sort_bars_sorted (bars : list (string * nat)) :
  StronglySorted Dashboard.more_frequent (Dashboard.sort_bars bars).
Proof.
  unfold Dashboard.sort_bars.
  assert (H : ∀ acc, StronglySorted Dashboard.more_frequent acc →
            StronglySorted Dashboard.more_frequent
              (foldl (λ sorted bar, Dashboard.insert_bar bar sorted) acc bars)).
  { induction bars as [|b bars IH]; intros acc Hacc; simpl; [exact Hacc|].
    by apply IH, insert_bar_sorted. }
  apply H. constructor.
Qed.

Lemma elem_of_value_counts (col : list (option string)) v n :
  (v, n) ∈ Dashboard.value_counts col ↔
  Some v ∈ col ∧ n = Dashboard.occurrences v col.
Proof.
  unfold Dashboard.value_counts. rewrite sort_bars_Permutation.
  unfold Dashboard.tally. rewrite list_elem_of_fmap. split.
  - intros (k & [= -> ->] & Hk). apply elem_of_distinct_from in Hk. tauto.
  - intros [Hv ->]. exists v. split; [reflexivity|].
    apply elem_of_distinct_from. split; [exact Hv|apply not_elem_of_nil].
Qed.

Lemma occurrences_fmap {R} (col : R → option string) (df : list R) v :
  Dashboard.occurrences v (col <$> df) = length (filter (λ r, col r = Some v) df).
Proof.
  unfold Dashboard.occurrences. induction df as [|r df IH]; [reflexivity|].
  rewrite fmap_cons, !filter_cons.
  destruct (decide (col r = Some v)); simpl; by rewrite IH.
Qed.



Lemma omap_filter_is_Some {A B} (f : A → option B) (l : list A) :
  omap f (filter (λ x, is_Some (f x)) l) = omap f l.
Proof.
  induction l as [|x l IH]; [reflexivity|].
  rewrite filter_cons. destruct (decide (is_Some (f x))) as [[y Hy]|Hn]; csimpl.
  - by rewrite Hy, IH.
  - destruct (f x) eqn:Hfx; [exfalso; apply Hn; eauto|exact IH].
Qed.

Lemma omap_fmap_compose {A B C} (f : B → option C) (g : A → B) (l : list A) :
  omap f (g <$> l) = omap (λ x, f (g x)) l.
Proof.
  induction l as [|x l IH]; [reflexivity|]. csimpl. by rewrite IH.
Qed.

Lemma strip_non_digits_chars (s : string) :
  list_ascii_of_string (Dashboard.strip_non_digits s) =
    filter (λ ch, Dashboard.isdigit ch = true) (list_ascii_of_string s).
Proof.
  induction s as [|c s IH]; [reflexivity|]. simpl. rewrite filter_cons.
  destruct (Dashboard.isdigit c) eqn:Hc.
  - rewrite decide_True by reflexivity. simpl. by rewrite IH.
  - rewrite decide_False by discriminate. exact IH.
Qed.


Lemma to_numeric_digits (s : string) (n : N) :
  s ≠ EmptyString → Dashboard.decimal_from 0 s = Some n →
  Dashboard.to_numeric s =
    if (n <? 2 ^ 53)%N then Dashboard.Number n else Dashboard.Large s.
Proof. intros Hs Hn. destruct s; [done|]. unfold Dashboard.to_numeric. by rewrite Hn. Qed.


(** A number the column holds is below 2^53. *)
Lemma clean_price_Number (cell : string) (n : N) :
  Dashboard.clean_price cell = Dashboard.Number n → (n < 2 ^ 53)%N.
Proof.
  unfold Dashboard.clean_price, Dashboard.to_numeric.
  destruct (Dashboard.strip_non_digits cell); [discriminate|].
  destruct (Dashboard.decimal_from _ _) as [m|]; [|discriminate].
  unfold Dashboard.exact_bound.
  destruct (m <? 2 ^ 53)%N eqn:Hm; [|discriminate].
  intros [= <-]. by apply N.ltb_lt.
Qed.

Lemma strip_non_digits_app (a b : string) :
  Dashboard.strip_non_digits (a +:+ b) =
    Dashboard.strip_non_digits a +:+ Dashboard.strip_non_digits b.
Proof.
  induction a as [|c a IH]; simpl; [reflexivity|].
  destruct (Dashboard.isdigit c); simpl; by rewrite IH.
Qed.

Lemma decimal_from_snoc (s : string) (d : ascii) : ∀ acc,
  Dashboard.isdigit d = true →
  Dashboard.decimal_from acc (s +:+ String d "") =
    (λ n, 10 * n + N.of_nat (nat_of_ascii d - 48))%N <$> Dashboard.decimal_from acc s.
Proof.
  induction s as [|c s IH]; intros acc Hd; simpl.
  - by rewrite Hd.
  - destruct (Dashboard.isdigit c); [by apply IH|reflexivity].
Qed.

(** *** The number a string of digits is read as

    [pretty n] is the decimal writing of [n], with no leading zero. *)









(** *** What is shown, in terms of the frame *)


Lemma plot_shown {R : Type} (df : list R) (price_col : option (R → string))
    (address_col : option (Dashboard.column R)) (item_col : Dashboard.column R)
    (st : Dashboard.stats) :
  Dashboard.plot_category_stats_lite df price_col address_col item_col
    = Dashboard.Shown st →
  let clean := (λ col r, Dashboard.read (Dashboard.clean_price (col r))) <$> price_col in
  let prices :=
    clean ← clean;
    match omap clean df with [] => None | l => Some l end in
  df ≠ [] ∧
  (∀ col, price_col = Some col →
     Dashboard.in_range ((λ r, Dashboard.clean_price (col r)) <$> df) = true) ∧
  st = {|
    Dashboard.total_items := length df;
    Dashboard.avg_price := Dashboard.mean <$> prices;
    Dashboard.max_price := Dashboard.maximum <$> prices;
    Dashboard.top_locations :=
      (λ col, take 10 (Dashboard.value_counts (Dashboard.cells_after df clean col <$> df)))
        <$> address_col;
    Dashboard.top_items :=
      take 10 (Dashboard.value_counts (Dashboard.cells_after df clean item_col <$> df));
    Dashboard.price_distribution := prices |}.
Proof.
  unfold Dashboard.plot_category_stats_lite. intros Hst.
  destruct df as [|r0 df0]; [discriminate|]. split; [discriminate|].
  destruct price_col as [col|]; cbn [fmap option_fmap option_map from_option] in Hst.
  - destruct (Dashboard.in_range _) eqn:Hrange; [|discriminate].
    split; [by intros ? [= <-]|]. injection Hst as <-.
    cbn [fmap option_fmap option_map mbind option_bind].
    by rewrite (omap_filter_is_Some (λ r, Dashboard.read (Dashboard.clean_price (col r)))).
  - split; [discriminate|]. by injection Hst as <-.
Qed.

Lemma forallb_false {A} (f : A → bool) (l : list A) :
  forallb f l = false → ∃ x, x ∈ l ∧ f x = false.
Proof.
  induction l as [|x l IH]; simpl; [discriminate|].
  destruct (f x) eqn:Hx; simpl.
  - intros H. destruct (IH H) as (y & Hy & Hf). exists y. split; [by right|exact Hf].
  - intros _. exists x. split; [left|exact Hx].
Qed.

(** The dashboard is left unfollowed only past "Total Items", and only for
    a price of 2^53 or more or for prices that add up to as much. *)
Lemma plot_out_of_range {R : Type} (df : list R) (price_col : option (R → string))
    (address_col : option (Dashboard.column R)) (item_col : Dashboard.column R)
    (n : nat) :
  Dashboard.plot_category_stats_lite df price_col address_col item_col
    = Dashboard.OutOfRange n →
  n = length df ∧
  ∃ col, price_col = Some col ∧
    ((∃ r digits, r ∈ df ∧ Dashboard.clean_price (col r) = Dashboard.Large digits) ∨
     (2 ^ 53 ≤ foldr N.add 0
                 (omap (λ r, Dashboard.read (Dashboard.clean_price (col r))) df))%N).
Proof.
  unfold Dashboard.plot_category_stats_lite. intros Hst.
  destruct df as [|r0 df0] eqn:Hdf; [discriminate|]. rewrite <- Hdf in *.
  assert (Hdf' : df ≠ []) by (rewrite Hdf; discriminate). clear Hdf.
  destruct df as [|r1 df1] eqn:Hdf; [done|]. rewrite <- Hdf in *. clear Hdf.
  destruct price_col as [col|]; cbn [fmap option_fmap option_map from_option] in Hst;
    [|discriminate].
  destruct (Dashboard.in_range _) eqn:Hrange; [discriminate|].
  injection Hst as <-. split; [reflexivity|]. exists col. split; [reflexivity|].
  unfold Dashboard.in_range, Dashboard.exact_bound in Hrange.
  apply andb_false_iff in Hrange as [Hlarge|Hsum].
  - left. apply forallb_false in Hlarge as (c & Hc & Hl).
    apply list_elem_of_fmap in Hc as (r & -> & Hr).
    destruct (Dashboard.clean_price (col r)) as [|m|digits] eqn:Hcl; [done|done|].
    by exists r, digits.
  - right. apply N.ltb_ge in Hsum. by rewrite omap_fmap_compose in Hsum.
Qed.


(** ** C9: the price column of the dashboard *)


(** It fails for a bar chart too when the column charted is [clean_price]
    itself, which line 95 has overwritten: in a file whose first column
    has that name and which has no column for the items, "Top Items"
    counts the cleaned prices, and the row with no price is in no bar. *)
Lemma chart_of_clean_price_leaves_rows_without_price_out :
  Reader.item_col (Reader.columns ReaderSample.prices_first) = Some "clean_price"%string ∧
  ∃ st, Reader.plot_category_stats_lite ReaderSample.prices_first = Dashboard.Shown st ∧
        Dashboard.total_items st = 3%nat ∧
        Dashboard.top_items st = [("12500.0"%string, 2%nat)] ∧
        Dashboard.top_locations st = Some [("Dakar"%string, 2%nat); ("Thies"%string, 1%nat)].
Proof.
  split; [reflexivity|]. eexists. split; [vm_compute; reflexivity|].
  split; [reflexivity|]. by split.
Qed.



(** * More of the scraping routine *)

(** ** The store over a session *)

Section Store.

Context (w : world) (url_base : string).

Lemma after_page_table_prefix s index :
  table s `prefix_of` table (after_page w url_base s index).
Proof.
  page_cases; simpl; try reflexivity. apply prefix_app_r. reflexivity.
Qed.

Lemma foldl_after_page_table_prefix (l : list Z) : ∀ s,
  table s `prefix_of` table (foldl (after_page w url_base) s l).
Proof.
  induction l as [|i l IH]; intros s; simpl; [reflexivity|].
  etransitivity; [apply after_page_table_prefix|apply IH].
Qed.

(** As long as no commit is answered by a rollback, what the connection
    sees, the table and then the open transaction, grows by the rows of
    each page, in the order of the pages. *)
Lemma foldl_after_page_visible (l : list Z) : ∀ s,
  (∀ i, i ∈ l → commit w i ≠ CommitRolledBack) →
  table (foldl (after_page w url_base) s l) ++ pending (foldl (after_page w url_base) s l)
    = table s ++ pending s ++ concat (page_rows w url_base <$> l).
Proof.
  induction l as [|i l IH]; intros s Hl; simpl.
  - by rewrite app_nil_r.
  - rewrite IH by (intros j Hj; apply Hl; by right).
    assert (Hi : commit w i ≠ CommitRolledBack) by (apply Hl; left).
    unfold page_rows, after_page.
    destruct (page w url_base i) as [cs|]; simpl; [|reflexivity].
    destruct (commit w i); simpl; [| |done]; by rewrite <- ?app_assoc.
Qed.

(** When every commit goes through, nothing stays in the transaction. *)
Lemma foldl_after_page_all_committed (l : list Z) : ∀ s,
  (∀ i, i ∈ l → commit w i = CommitOk) → pending s = [] →
  pending (foldl (after_page w url_base) s l) = [].
Proof.
  induction l as [|i l IH]; intros s Hl Hp; simpl; [exact Hp|].
  apply IH; [intros j Hj; apply Hl; by right|].
  unfold after_page. destruct (page w url_base i); [|exact Hp].
  rewrite (Hl i) by left. reflexivity.
Qed.

(** When every commit finds the database busy, nothing reaches the table. *)
Lemma foldl_after_page_all_busy (l : list Z) : ∀ s,
  (∀ i, i ∈ l → commit w i = CommitBusy) →
  table (foldl (after_page w url_base) s l) = table s.
Proof.
  induction l as [|i l IH]; intros s Hl; simpl; [reflexivity|].
  rewrite IH by (intros j Hj; apply Hl; by right).
  unfold after_page. destruct (page w url_base i); [|reflexivity].
  rewrite (Hl i) by left. reflexivity.
Qed.

End Store.

Lemma export_returns (csv_name : string) (df : list row) (s : session) :
  (export csv_name df s).1 = Return (drop_duplicates df).
Proof. destruct df; reflexivity. Qed.

(** What the routine returns when nothing stops it and no commit is rolled
    back. *)
Lemma scrape_data_returns_all w url_base table_name db_name csv_name user_pages max_limit s :
  create_table_ok w = true → read_sql_ok w = true →
  (∀ i, 1 ≤ i ≤ actual_pages user_pages max_limit → commit w i ≠ CommitRolledBack) →
  (scrape_data w url_base table_name db_name csv_name user_pages max_limit s).1 =
    Return (drop_duplicates
      (table s ++ concat (page_rows w url_base <$>
                            Py.range 1 (actual_pages user_pages max_limit + 1)))).
Proof.
  intros Hc Hr Hcommit. rewrite scrape_data_run, Hc, Hr. cbv zeta.
  unfold after_pages. rewrite foldl_after_page_visible.
  2:{ intros i Hi. apply Hcommit. apply elem_of_range in Hi. lia. }
  simpl. destruct (empty _) eqn:He; [|reflexivity].
  apply empty_true in He. by rewrite He.
Qed.

(** X1. The routine never takes a committed row out of the store: whatever
    the pages, the INSERTs, the commits and the reads answer, and whether it
    returns or raises, the table it leaves starts with the table it
    found. *)
Theorem store_only_grows
    (w : world) (url_base table_name db_name csv_name : string)
    (user_pages max_limit : Z) (s : session) :
  table s `prefix_of`
    table (scrape_data w url_base table_name db_name csv_name user_pages max_limit s).2.
Proof.
  rewrite scrape_data_run. cbv zeta.
  destruct (create_table_ok w); [|reflexivity].
  assert (H : table s `prefix_of`
      table (after_pages w url_base (set_pending [] (set_conn_open true s))
               (actual_pages user_pages max_limit)))
    by apply (foldl_after_page_table_prefix w url_base _ (set_pending [] (set_conn_open true s))).
  destruct (read_sql_ok w); [destruct (empty _)|]; exact H.
Qed.

(** X2. When the schema creation goes through and every commit does, the
    store ends with the rows it had followed by the rows of page 1, then
    those of page 2, and so on, each page in the order of its cards, and
    nothing is left uncommitted. *)
Theorem rows_stored_in_page_order
    (w : world) (url_base table_name db_name csv_name : string)
    (user_pages max_limit : Z) (s : session) :
  create_table_ok w = true →
  (∀ i, 1 ≤ i ≤ actual_pages user_pages max_limit → commit w i = CommitOk) →
  let run := scrape_data w url_base table_name db_name csv_name user_pages max_limit s in
  table run.2 =
    table s ++ concat (page_rows w url_base <$>
                         Py.range 1 (actual_pages user_pages max_limit + 1)) ∧
  pending run.2 = [].
Proof.
  intros Hc Hcommit run.
  set (s1 := set_pending [] (set_conn_open true s)).
  set (l := Py.range 1 (actual_pages user_pages max_limit + 1)).
  assert (Hl : ∀ i, i ∈ l → commit w i = CommitOk).
  { intros i Hi. apply Hcommit. apply elem_of_range in Hi. lia. }
  assert (Hp : pending (foldl (after_page w url_base) s1 l) = [])
    by (by apply foldl_after_page_all_committed).
  assert (Ht : table (foldl (after_page w url_base) s1 l) =
               table s ++ concat (page_rows w url_base <$> l)).
  { pose proof (foldl_after_page_visible w url_base l s1) as H.
    rewrite Hp, app_nil_r in H. rewrite H; [reflexivity|].
    intros i Hi. by rewrite (Hl i Hi). }
  unfold run. rewrite scrape_data_run, Hc. cbv zeta. fold s1. unfold after_pages. fold l.
  destruct (read_sql_ok w); [destruct (empty _)|]; simpl; auto.
Qed.

Lemma rows_stored_in_page_order_witness :
  let w := Sample.page_2_down in
  let run := scrape_category w ChildrenShoes 3 Sample.fresh in
  create_table_ok w = true ∧
  (∀ i, 1 ≤ i ≤ actual_pages 3 (cap_of ChildrenShoes) → commit w i = CommitOk) ∧
  table run.2 = [Sample.shirt_row; Sample.shirt_row] ∧
  pending run.2 = [].
Proof.
  intros w run.
  assert (Hcommit : ∀ i, 1 ≤ i ≤ actual_pages 3 (cap_of ChildrenShoes) →
                         commit w i = CommitOk) by reflexivity.
  pose proof (rows_stored_in_page_order w (url_of ChildrenShoes)
                (table_of ChildrenShoes) (db_of ChildrenShoes) (csv_of ChildrenShoes)
                3 (cap_of ChildrenShoes) Sample.fresh eq_refl Hcommit) as H.
  cbv zeta in H. destruct H as [Ht Hp].
  split; [reflexivity|]. split; [exact Hcommit|]. split; [|exact Hp].
  etransitivity; [exact Ht|reflexivity].
Defined.

(** Rows that are in the table already add nothing to its de-duplication. *)
Lemma drop_duplicates_app_known (l extra : list row) :
  (∀ r, r ∈ extra → r ∈ l) → drop_duplicates (l ++ extra) = drop_duplicates l.
Proof.
  induction extra as [|x extra IH] using rev_ind; intros Hin.
  - by rewrite app_nil_r.
  - rewrite app_assoc, drop_duplicates_snoc.
    rewrite decide_True.
    + apply IH. intros r Hr. apply Hin, elem_of_app. by left.
    + apply elem_of_app. left. apply Hin, elem_of_app. right. left.
Qed.

(** The files when nothing stops the routine. *)
Lemma scrape_data_fs w url_base table_name db_name csv_name user_pages max_limit s :
  create_table_ok w = true → read_sql_ok w = true →
  (∀ i, 1 ≤ i ≤ actual_pages user_pages max_limit → commit w i ≠ CommitRolledBack) →
  let df := table s ++ concat (page_rows w url_base <$>
                                 Py.range 1 (actual_pages user_pages max_limit + 1)) in
  fs (scrape_data w url_base table_name db_name csv_name user_pages max_limit s).2 =
    if empty df then fs s else <[csv_name := drop_duplicates df]> (fs s).
Proof.
  intros Hc Hr Hcommit df. rewrite scrape_data_run, Hc, Hr. cbv zeta.
  unfold after_pages. rewrite foldl_after_page_visible.
  2:{ intros i Hi. apply Hcommit. apply elem_of_range in Hi. lia. }
  simpl. fold df. destruct (empty df); simpl; by rewrite foldl_after_page_fs.
Qed.

Lemma scrape_data_all_committed w url_base table_name db_name csv_name user_pages max_limit s :
  create_table_ok w = true →
  (∀ i, 1 ≤ i ≤ actual_pages user_pages max_limit → commit w i = CommitOk) →
  table (scrape_data w url_base table_name db_name csv_name user_pages max_limit s).2 =
    table s ++ concat (page_rows w url_base <$>
                         Py.range 1 (actual_pages user_pages max_limit + 1)).
Proof.
  intros Hc Hcommit. rewrite scrape_data_table by done.
  set (s1 := set_pending [] (set_conn_open true s)).
  set (l := Py.range 1 (actual_pages user_pages max_limit + 1)).
  assert (Hl : ∀ i, i ∈ l → commit w i = CommitOk).
  { intros i Hi. apply Hcommit. apply elem_of_range in Hi. lia. }
  pose proof (foldl_after_page_visible w url_base l s1) as H.
  unfold after_pages. fold l.
  rewrite (foldl_after_page_all_committed w url_base l s1 Hl eq_refl), app_nil_r in H.
  rewrite H; [reflexivity|]. intros i Hi. by rewrite (Hl i Hi).
Qed.

(** X3. Nothing in the store keeps a row from being inserted twice.  When
    a session in which nothing failed is run again and the site answers the
    same pages, the store holds the rows of the pages once more, after the
    ones it had, while the table returned and the file exported are the
    same as after the first run. *)
Theorem rescrape_doubles_store_not_export
    (w : world) (url_base table_name db_name csv_name : string)
    (user_pages max_limit : Z) (s : session) :
  create_table_ok w = true → read_sql_ok w = true →
  (∀ i, 1 ≤ i ≤ actual_pages user_pages max_limit → commit w i = CommitOk) →
  let scraped := concat (page_rows w url_base <$>
                           Py.range 1 (actual_pages user_pages max_limit + 1)) in
  let run1 := scrape_data w url_base table_name db_name csv_name user_pages max_limit s in
  let run2 :=
    scrape_data w url_base table_name db_name csv_name user_pages max_limit run1.2 in
  table run1.2 = table s ++ scraped ∧
  table run2.2 = table s ++ scraped ++ scraped ∧
  run2.1 = run1.1 ∧
  fs run2.2 = fs run1.2.
Proof.
  intros Hc Hr Hcommit scraped run1 run2.
  assert (Hno : ∀ i, 1 ≤ i ≤ actual_pages user_pages max_limit →
                     commit w i ≠ CommitRolledBack).
  { intros i Hi. by rewrite (Hcommit i Hi). }
  assert (Ht1 : table run1.2 = table s ++ scraped)
    by (by apply scrape_data_all_committed).
  assert (Ht2 : table run2.2 = table s ++ scraped ++ scraped).
  { unfold run2. rewrite scrape_data_all_committed by done.
    fold scraped. by rewrite Ht1, <- app_assoc. }
  assert (Hdd : drop_duplicates (table run1.2 ++ scraped) =
                drop_duplicates (table s ++ scraped)).
  { rewrite Ht1. apply drop_duplicates_app_known.
    intros r Hr'. apply elem_of_app. by right. }
  split; [exact Ht1|]. split; [exact Ht2|]. split.
  - unfold run2, run1. rewrite !scrape_data_returns_all by done.
    fold scraped run1. by rewrite Hdd.
  - assert (Hf1 : fs run1.2 =
        if empty (table s ++ scraped) then fs s
        else <[csv_name := drop_duplicates (table s ++ scraped)]> (fs s))
      by (by apply scrape_data_fs).
    assert (Hf2 : fs run2.2 =
        if empty (table run1.2 ++ scraped) then fs run1.2
        else <[csv_name := drop_duplicates (table run1.2 ++ scraped)]> (fs run1.2))
      by (by apply scrape_data_fs).
    assert (He : empty (table run1.2 ++ scraped) = empty (table s ++ scraped)).
    { rewrite Ht1. clear. generalize (table s), scraped.
      intros [|? ?] [|? ?]; reflexivity. }
    rewrite Hf2, Hdd, He.
    destruct (empty (table s ++ scraped)); [reflexivity|].
    rewrite Hf1. by rewrite insert_insert_eq.
Qed.

Lemma rescrape_doubles_store_not_export_witness :
  let w := Sample.same_card_everywhere in
  let run1 := scrape_category w ChildrenShoes 1 Sample.fresh in
  let run2 := scrape_category w ChildrenShoes 1 run1.2 in
  create_table_ok w = true ∧ read_sql_ok w = true ∧
  (∀ i, 1 ≤ i ≤ actual_pages 1 (cap_of ChildrenShoes) → commit w i = CommitOk) ∧
  table run1.2 = [Sample.shirt_row] ∧
  table run2.2 = [Sample.shirt_row; Sample.shirt_row] ∧
  run2.1 = run1.1.
Proof.
  intros w run1 run2.
  assert (Hcommit : ∀ i, 1 ≤ i ≤ actual_pages 1 (cap_of ChildrenShoes) →
                         commit w i = CommitOk) by reflexivity.
  pose proof (rescrape_doubles_store_not_export w (url_of ChildrenShoes)
                (table_of ChildrenShoes) (db_of ChildrenShoes) (csv_of ChildrenShoes)
                1 (cap_of ChildrenShoes) Sample.fresh eq_refl eq_refl Hcommit) as H.
  cbv zeta in H. destruct H as (H1 & H2 & H3 & _).
  split; [reflexivity|]. split; [reflexivity|]. split; [exact Hcommit|].
  split; [etransitivity; [exact H1|reflexivity]|].
  split; [etransitivity; [exact H2|reflexivity]|exact H3].
Defined.

(** X4. A commit that finds the database busy leaves its rows in the open
    transaction, which the final read sees and [conn.close()] drops.  When
    every commit of a session is answered that way, the store is left as it
    was found, and yet the rows of the pages are in the table returned and,
    when that table is not empty, in the file exported. *)
Theorem busy_commits_export_rows_never_stored
    (w : world) (url_base table_name db_name csv_name : string)
    (user_pages max_limit : Z) (s : session) :
  create_table_ok w = true → read_sql_ok w = true →
  (∀ i, 1 ≤ i ≤ actual_pages user_pages max_limit → commit w i = CommitBusy) →
  let scraped := concat (page_rows w url_base <$>
                           Py.range 1 (actual_pages user_pages max_limit + 1)) in
  let run := scrape_data w url_base table_name db_name csv_name user_pages max_limit s in
  table run.2 = table s ∧
  pending run.2 = [] ∧
  run.1 = Return (drop_duplicates (table s ++ scraped)) ∧
  (table s ++ scraped ≠ [] →
     fs run.2 !! csv_name = Some (drop_duplicates (table s ++ scraped))).
Proof.
  intros Hc Hr Hcommit scraped run.
  assert (Hno : ∀ i, 1 ≤ i ≤ actual_pages user_pages max_limit →
                     commit w i ≠ CommitRolledBack).
  { intros i Hi. by rewrite (Hcommit i Hi). }
  split; [|split; [|split]].
  - unfold run. rewrite scrape_data_table by done. unfold after_pages.
    rewrite foldl_after_page_all_busy; [reflexivity|].
    intros i Hi. apply Hcommit. apply elem_of_range in Hi. lia.
  - unfold run. rewrite scrape_data_run, Hc, Hr. cbv zeta.
    destruct (empty _); reflexivity.
  - unfold run. by rewrite scrape_data_returns_all.
  - intros Hne. unfold run. rewrite scrape_data_fs by done. cbv zeta. fold scraped.
    destruct (table s ++ scraped) eqn:Hd; [done|]. simpl.
    apply lookup_insert_eq.
Qed.

Lemma busy_commits_export_rows_never_stored_witness :
  let w := Sample.always_busy in
  let run := scrape_category w ChildrenShoes 2 Sample.fresh in
  create_table_ok w = true ∧ read_sql_ok w = true ∧
  (∀ i, 1 ≤ i ≤ actual_pages 2 (cap_of ChildrenShoes) → commit w i = CommitBusy) ∧
  table run.2 = [] ∧
  run.1 = Return [Sample.shirt_row] ∧
  fs run.2 !! csv_of ChildrenShoes = Some [Sample.shirt_row].
Proof.
  intros w run.
  assert (Hcommit : ∀ i, 1 ≤ i ≤ actual_pages 2 (cap_of ChildrenShoes) →
                         commit w i = CommitBusy) by reflexivity.
  pose proof (busy_commits_export_rows_never_stored w (url_of ChildrenShoes)
                (table_of ChildrenShoes) (db_of ChildrenShoes) (csv_of ChildrenShoes)
                2 (cap_of ChildrenShoes) Sample.fresh eq_refl eq_refl Hcommit) as H.
  cbv zeta in H. destruct H as (Ht & _ & Hret & Hfile).
  split; [reflexivity|]. split; [reflexivity|]. split; [exact Hcommit|].
  split; [exact Ht|]. split.
  - etransitivity; [exact Hret|]. vm_compute. reflexivity.
  - etransitivity; [apply Hfile; discriminate|]. vm_compute. reflexivity.
Defined.

(** X5. With a page count that is zero or negative (one of the two
    arguments is) the range of the loop is empty: once the schema is
    created no page is requested and the store is left as found, and the
    routine goes on to read it and export it as it is. *)
Theorem no_request_without_pages
    (w : world) (url_base table_name db_name csv_name : string)
    (user_pages max_limit : Z) (s : session) :
  Z.min user_pages max_limit ≤ 0 →
  create_table_ok w = true →
  let run := scrape_data w url_base table_name db_name csv_name user_pages max_limit s in
  requests run.2 = requests s ∧
  table run.2 = table s ∧
  (read_sql_ok w = true →
     run.1 = Return (drop_duplicates (table s)) ∧
     (table s ≠ [] → fs run.2 !! csv_name = Some (drop_duplicates (table s)))).
Proof.
  intros Hmin Hc run.
  assert (Hrange : Py.range 1 (actual_pages user_pages max_limit + 1) = []).
  { unfold Py.range, actual_pages.
    replace (Z.to_nat (Z.min user_pages max_limit + 1 - 1)) with 0%nat by lia.
    reflexivity. }
  assert (Hno : ∀ i, 1 ≤ i ≤ actual_pages user_pages max_limit →
                     commit w i ≠ CommitRolledBack).
  { unfold actual_pages. intros i Hi. lia. }
  split; [|split].
  - unfold run. rewrite scrape_data_requests by done.
    fold (actual_pages user_pages max_limit). rewrite Hrange. apply app_nil_r.
  - unfold run. rewrite scrape_data_table by done. unfold after_pages.
    by rewrite Hrange.
  - intros Hr. split.
    + unfold run. rewrite scrape_data_returns_all by done.
      by rewrite Hrange, app_nil_r.
    + intros Hne. unfold run. rewrite scrape_data_fs by done. cbv zeta.
      rewrite Hrange. simpl. rewrite app_nil_r.
      destruct (table s); [done|]. apply lookup_insert_eq.
Qed.

Lemma no_request_without_pages_witness :
  let w := Sample.same_card_everywhere in
  let run := scrape_data w (url_of MensShoes) (table_of MensShoes) (db_of MensShoes)
               (csv_of MensShoes) 0 119 Sample.fresh in
  Z.min 0 119 ≤ 0 ∧ create_table_ok w = true ∧
  requests run.2 = [] ∧ table run.2 = [].
Proof.
  intros w run.
  pose proof (no_request_without_pages w (url_of MensShoes) (table_of MensShoes)
                (db_of MensShoes) (csv_of MensShoes) 0 119 Sample.fresh
                ltac:(done) eq_refl) as H.
  cbv zeta in H. destruct H as (Hreq & Ht & _).
  split; [done|]. split; [reflexivity|]. split; [exact Hreq|exact Ht].
Defined.

(** ** The files *)

Lemma scrape_data_other_files w url_base table_name db_name csv_name user_pages max_limit
    s (name : string) :
  name ≠ csv_name →
  fs (scrape_data w url_base table_name db_name csv_name user_pages max_limit s).2 !! name
    = fs s !! name.
Proof.
  intros Hne. rewrite scrape_data_run. cbv zeta.
  destruct (create_table_ok w); [|reflexivity].
  destruct (read_sql_ok w); [destruct (empty _)|]; simpl;
    unfold after_pages; rewrite ?lookup_insert_ne by done;
    by rewrite foldl_after_page_fs.
Qed.

Lemma csv_of_inj cat cat' : csv_of cat = csv_of cat' → cat = cat'.
Proof. destruct cat, cat'; simpl; intros H; try reflexivity; discriminate. Qed.

(** X6. The session of one category leaves the CSV exports of the three
    other categories as they were, whatever happens in the session: the
    only export it writes, if it writes one, is its own. *)
Theorem session_touches_only_its_export
    (w : world) (cat cat' : category) (Pages : Z) (s : session) :
  cat' ≠ cat →
  fs (scrape_category w cat Pages s).2 !! csv_of cat' = fs s !! csv_of cat'.
Proof.
  intros Hne. apply scrape_data_other_files.
  intros Heq. by apply Hne, csv_of_inj.
Qed.

Lemma session_touches_only_its_export_witness :
  let run := scrape_category Sample.same_card_everywhere MensShoes 2 Sample.with_old_export in
  ChildrenShoes ≠ MensShoes ∧
  fs run.2 !! csv_of ChildrenShoes = Some [Sample.shirt_row].
Proof.
  intros run.
  assert (Hne : ChildrenShoes ≠ MensShoes) by discriminate.
  split; [exact Hne|].
  etransitivity;
    [exact (session_touches_only_its_export Sample.same_card_everywhere MensShoes
              ChildrenShoes 2 Sample.with_old_export Hne)|reflexivity].
Defined.

(** ** The text fields of a row *)

(** [lstrip] takes white space off the front, and only that. *)
Lemma lstrip_spec (s : string) :
  ∃ pre, list_ascii_of_string s = pre ++ list_ascii_of_string (Py.lstrip s) ∧
         Forall (λ ch, Py.isspace ch = true) pre ∧
         ∀ ch, head (list_ascii_of_string (Py.lstrip s)) = Some ch → Py.isspace ch = false.
Proof.
  induction s as [|c s (pre & Hs & Hpre & Hhead)]; simpl.
  - exists []. split; [reflexivity|]. split; [constructor|]. intros ch [=].
  - destruct (Py.isspace c) eqn:Hc.
    + exists (c :: pre). split; [simpl; by rewrite <- Hs|].
      split; [by constructor|exact Hhead].
    + exists []. split; [reflexivity|]. split; [constructor|].
      simpl. intros ch [= <-]. exact Hc.
Qed.

(** [rstrip] takes white space off the end, and only that. *)
Lemma rstrip_spec (s : string) :
  ∃ post, list_ascii_of_string s = list_ascii_of_string (Py.rstrip s) ++ post ∧
          Forall (λ ch, Py.isspace ch = true) post ∧
          ∀ ch, last (list_ascii_of_string (Py.rstrip s)) = Some ch → Py.isspace ch = false.
Proof.
  induction s as [|c s (post & Hs & Hpost & Hlast)]; simpl.
  - exists []. split; [reflexivity|]. split; [constructor|]. intros ch [=].
  - destruct (Py.rstrip s) as [|d r] eqn:Hr.
    + simpl in Hs. destruct (Py.isspace c) eqn:Hc.
      * exists (c :: post). split; [simpl; by rewrite Hs|].
        split; [by constructor|]. intros ch [=].
      * exists post. split; [simpl; by rewrite Hs|]. split; [exact Hpost|].
        simpl. intros ch [= <-]. exact Hc.
    + exists post. split; [simpl; by rewrite Hs|]. split; [exact Hpost|].
      intros ch Hch. apply Hlast.
      change (list_ascii_of_string (String c (String d r)))
        with (c :: list_ascii_of_string (String d r)) in Hch.
      simpl in Hch |- *. exact Hch.
Qed.

(** [strip]: the text without the white space around it. *)
Lemma strip_spec (s : string) :
  ∃ pre post,
    list_ascii_of_string s = pre ++ list_ascii_of_string (Py.strip s) ++ post ∧
    Forall (λ ch, Py.isspace ch = true) pre ∧
    Forall (λ ch, Py.isspace ch = true) post ∧
    (∀ ch, head (list_ascii_of_string (Py.strip s)) = Some ch → Py.isspace ch = false) ∧
    (∀ ch, last (list_ascii_of_string (Py.strip s)) = Some ch → Py.isspace ch = false).
Proof.
  destruct (lstrip_spec s) as (pre & Hs & Hpre & Hhead).
  destruct (rstrip_spec (Py.lstrip s)) as (post & Hl & Hpost & Hlast).
  exists pre, post. unfold Py.strip.
  split; [by rewrite Hs, Hl|]. split; [exact Hpre|]. split; [exact Hpost|].
  split; [|exact Hlast].
  intros ch Hch. apply Hhead. rewrite Hl.
  destruct (list_ascii_of_string (Py.rstrip (Py.lstrip s))); [discriminate|exact Hch].
Qed.

(** X7. The item name and the address of a row are the texts of the card
    without the white space around them: each is what is left of its text
    between a run of white space at the front and one at the end, and
    neither begins nor ends with a white space character. *)
Theorem stored_texts_are_trimmed (c : container) (r : row) :
  extract c = Some r →
  ∃ description location : string,
    card_description c = Some description ∧
    card_location c = Some (Some location) ∧
    ∀ raw field, (raw, field) ∈ [(description, type_item r); (location, address r)] →
      (∃ pre post,
         list_ascii_of_string raw = pre ++ list_ascii_of_string field ++ post ∧
         Forall (λ ch, Py.isspace ch = true) pre ∧
         Forall (λ ch, Py.isspace ch = true) post) ∧
      (∀ ch, head (list_ascii_of_string field) = Some ch → Py.isspace ch = false) ∧
      (∀ ch, last (list_ascii_of_string field) = Some ch → Py.isspace ch = false).
Proof.
  unfold extract. intros He.
  destruct c as [[t|] [p|] [[a|]|] [i|]]; simpl in He; try discriminate.
  injection He as <-. exists t, a. split; [reflexivity|]. split; [reflexivity|].
  intros raw field Hin. cbn [type_item address] in Hin.
  assert (Hfield : field = Py.strip raw).
  { apply elem_of_cons in Hin as [[= -> ->]|Hin]; [reflexivity|].
    apply list_elem_of_singleton in Hin as [= -> ->]. reflexivity. }
  subst field.
  destruct (strip_spec raw) as (pre & post & H1 & H2 & H3 & H4 & H5).
  split; [by exists pre, post|]. split; [exact H4|exact H5].
Qed.

Lemma stored_texts_are_trimmed_witness :
  extract Sample.shirt = Some Sample.shirt_row ∧
  (∀ ch, head (list_ascii_of_string (type_item Sample.shirt_row)) = Some ch →
         Py.isspace ch = false) ∧
  (∀ ch, last (list_ascii_of_string (address Sample.shirt_row)) = Some ch →
         Py.isspace ch = false).
Proof.
  destruct (stored_texts_are_trimmed Sample.shirt Sample.shirt_row eq_refl)
    as (description & location & _ & _ & H).
  split; [reflexivity|]. split.
  - apply (H description (type_item Sample.shirt_row)). left.
  - apply (H location (address Sample.shirt_row)). right. left.
Defined.

(** ** From the price stored to the price read *)

Lemma filter_stored_price (raw : string) :
  filter (λ ch, ch ∉ list_ascii_of_string " CFA")
    (list_ascii_of_string (Py.replace (Py.replace raw "CFA" "") " " "")) =
  filter (λ ch, ch ∉ list_ascii_of_string " CFA") (list_ascii_of_string raw).
Proof.
  rewrite <- (filter_implied (λ ch, ch ∉ list_ascii_of_string " ") _
                (list_ascii_of_string (Py.replace _ " " ""))).
  2:{ intros ch Hch Hin. apply Hch. apply list_elem_of_singleton in Hin as ->. left. }
  rewrite filter_replace by discriminate.
  rewrite filter_implied.
  2:{ intros ch Hch Hin. apply Hch. apply list_elem_of_singleton in Hin as ->. left. }
  rewrite <- (filter_implied (λ ch, ch ∉ list_ascii_of_string "CFA") _
                (list_ascii_of_string (Py.replace _ "CFA" ""))).
  2:{ intros ch Hch Hin. apply Hch. by right. }
  rewrite filter_replace by discriminate.
  apply filter_implied. intros ch Hch Hin. apply Hch. by right.
Qed.

Lemma digit_not_in_marker ch :
  Dashboard.isdigit ch = true → ch ∉ list_ascii_of_string " CFA".
Proof.
  intros Hd Hin. simpl in Hin.
  repeat (apply elem_of_cons in Hin as [->|Hin]; [discriminate|]).
  by apply elem_of_nil in Hin.
Qed.

(** The digits of a text decide what the dashboard reads from it. *)
Lemma clean_price_digits (a b : string) :
  filter (λ ch, Dashboard.isdigit ch = true) (list_ascii_of_string a) =
  filter (λ ch, Dashboard.isdigit ch = true) (list_ascii_of_string b) →
  Dashboard.clean_price a = Dashboard.clean_price b.
Proof.
  intros H. unfold Dashboard.clean_price. f_equal.
  rewrite <- (string_of_list_ascii_of_string (Dashboard.strip_non_digits a)).
  rewrite <- (string_of_list_ascii_of_string (Dashboard.strip_non_digits b)).
  by rewrite !strip_non_digits_chars, H.
Qed.

(** X8. What line 158 takes out of a price text has no digit in it, so the
    dashboard reads from the price stored the number it would read from
    the text of the card: whatever the text, cleaning the stored price
    gives what cleaning the raw text gives. *)
Theorem stored_price_reads_as_raw_price (c : container) (r : row) (raw : string) :
  extract c = Some r → card_price c = Some raw →
  Dashboard.clean_price (price r) = Dashboard.clean_price raw.
Proof.
  unfold extract. intros He Hraw.
  destruct c as [[t|] [p|] [[a|]|] [i|]]; simpl in He, Hraw; try discriminate.
  injection He as <-. injection Hraw as ->. cbn [price].
  apply clean_price_digits.
  rewrite <- (filter_implied (λ ch, ch ∉ list_ascii_of_string " CFA") _
                (list_ascii_of_string (Py.replace _ " " "")))
    by apply digit_not_in_marker.
  rewrite filter_stored_price.
  apply filter_implied, digit_not_in_marker.
Qed.

Lemma stored_price_reads_as_raw_price_witness :
  extract Sample.shirt = Some Sample.shirt_row ∧
  card_price Sample.shirt = Some "12 500 CFA"%string ∧
  Dashboard.clean_price (price Sample.shirt_row) = Dashboard.Number 12500.
Proof.
  split; [reflexivity|]. split; [reflexivity|].
  etransitivity;
    [exact (stored_price_reads_as_raw_price Sample.shirt Sample.shirt_row
              "12 500 CFA" eq_refl eq_refl)|reflexivity].
Defined.

(** * More of the dashboard reader *)

(** X9. Only the digits of a price cell count.  A character that is not a
    digit, where ever it stands, changes nothing to what is read: a sign or
    a decimal point is dropped, not read.  So a cell with the digits of
    another followed by [.0], as the [str] of a float is, reads as ten
    times the number the other reads as, as long as that is below 2^53. *)
Theorem price_is_read_from_digits_only (a b : string) (c : ascii) (n : N) :
  Dashboard.isdigit c = false →
  Dashboard.clean_price (a +:+ String c b) = Dashboard.clean_price (a +:+ b) ∧
  (Dashboard.clean_price a = Dashboard.Number n → (10 * n < 2 ^ 53)%N →
   Dashboard.clean_price (a +:+ ".0") = Dashboard.Number (10 * n)).
Proof.
  intros Hc. split.
  - unfold Dashboard.clean_price. f_equal.
    rewrite !strip_non_digits_app. simpl. by rewrite Hc.
  - unfold Dashboard.clean_price. rewrite strip_non_digits_app.
    change (Dashboard.strip_non_digits ".0") with (String "0" "").
    intros Hn Hb.
    destruct (Dashboard.strip_non_digits a) as [|d s] eqn:Hs; [discriminate|].
    unfold Dashboard.to_numeric in Hn.
    destruct (Dashboard.decimal_from 0 (String d s)) as [m|] eqn:Hm; [|discriminate].
    destruct (m <? Dashboard.exact_bound)%N; [|discriminate]. injection Hn as ->.
    rewrite (to_numeric_digits _ (10 * n)).
    + apply N.ltb_lt in Hb. by rewrite Hb.
    + change (String d s +:+ String "0" "") with (String d (s +:+ String "0" "")).
      discriminate.
    + rewrite decimal_from_snoc by reflexivity. rewrite Hm. simpl. f_equal. lia.
Qed.

Lemma price_is_read_from_digits_only_witness :
  Dashboard.isdigit "." = false ∧
  Dashboard.clean_price "12.5" = Dashboard.clean_price "125" ∧
  Dashboard.clean_price "12500" = Dashboard.Number 12500 ∧
  Dashboard.clean_price "12500.0" = Dashboard.Number 125000.
Proof.
  destruct (price_is_read_from_digits_only "12" "5" "." 0 eq_refl) as [H1 _].
  destruct (price_is_read_from_digits_only "12500" "" "." 12500 eq_refl) as [_ H2].
  split; [reflexivity|]. split; [exact H1|]. split; [reflexivity|].
  exact (H2 eq_refl eq_refl).
Defined.

Lemma sum_le_maximum (prices : list N) :
  (foldr N.add 0 prices ≤ N.of_nat (length prices) * foldr N.max 0 prices)%N.
Proof.
  induction prices as [|p prices IH]; simpl; [lia|]. nia.
Qed.

Lemma maximum_elem_of (prices : list N) :
  prices ≠ [] → foldr N.max 0%N prices ∈ prices.
Proof.
  induction prices as [|p prices IH]; [done|]. intros _. simpl.
  destruct prices as [|q prices].
  - simpl. rewrite N.max_0_r. left.
  - destruct (N.max_spec p (foldr N.max 0%N (q :: prices))) as [[_ ->]|[_ ->]].
    + right. by apply IH.
    + left.
Qed.

Lemma read_Some (c : Dashboard.cleaned) (n : N) :
  Dashboard.read c = Some n ↔ c = Dashboard.Number n.
Proof. destruct c; simpl; split; congruence. Qed.

(** X10. Whenever an average and a maximum are shown, the prices and
    their sum being below 2^53, the maximum is the price read from one of
    the rows, no price read from a row is above it, and the average is
    not negative and not above the maximum. *)
Theorem average_is_at_most_maximum {R : Type} (df : list R)
    (price_col : option (R → string)) (address_col : option (Dashboard.column R))
    (item_col : Dashboard.column R) (st : Dashboard.stats) (avg : Z) :
  Dashboard.plot_category_stats_lite df price_col address_col item_col
    = Dashboard.Shown st →
  Dashboard.avg_price st = Some avg →
  ∃ (col : R → string) (top : N),
    price_col = Some col ∧
    Dashboard.max_price st = Some (Z.of_N top) ∧
    0 ≤ avg ≤ Z.of_N top ∧
    (top < 2 ^ 53)%N ∧
    (∃ r, r ∈ df ∧ Dashboard.clean_price (col r) = Dashboard.Number top) ∧
    (∀ r p, r ∈ df → Dashboard.clean_price (col r) = Dashboard.Number p → (p ≤ top)%N).
Proof.
  intros Hst Havg. apply plot_shown in Hst as (_ & _ & ->).
  destruct price_col as [col|]; [|discriminate]. exists col.
  cbn [Dashboard.avg_price Dashboard.max_price mbind option_bind
       fmap option_fmap option_map] in *.
  set (prices := omap (λ r, Dashboard.read (Dashboard.clean_price (col r))) df) in *.
  destruct prices as [|p0 prices0] eqn:Hp; [discriminate|].
  rewrite <- Hp in *. assert (Hne : prices ≠ []) by (rewrite Hp; discriminate).
  clear Hp. injection Havg as <-.
  exists (foldr N.max 0%N prices). split; [reflexivity|]. split; [reflexivity|].
  pose proof (sum_le_maximum prices) as Hsum.
  assert (Hlen : (0 < length prices)%nat) by (destruct prices; [done|simpl; lia]).
  assert (Htop : ∃ r, r ∈ df ∧
            Dashboard.clean_price (col r) = Dashboard.Number (foldr N.max 0%N prices)).
  { apply maximum_elem_of in Hne. unfold prices in Hne.
    apply list_elem_of_omap in Hne as (r & Hr & Hc). apply read_Some in Hc.
    by exists r. }
  split; [|split; [|split]].
  - unfold Dashboard.mean. split.
    + apply Z.div_pos; lia.
    + apply Z.div_le_upper_bound; [lia|]. lia.
  - destruct Htop as (r & _ & Hc). by apply clean_price_Number in Hc.
  - exact Htop.
  - intros r p Hr Hc.
    assert (Hin : p ∈ prices).
    { apply list_elem_of_omap. exists r. split; [exact Hr|by apply read_Some]. }
    clear -Hin. induction prices as [|q prices IH]; [by apply elem_of_nil in Hin|].
    simpl. apply elem_of_cons in Hin as [->|Hin]; [lia|].
    specialize (IH Hin). lia.
Qed.

Lemma average_is_at_most_maximum_witness :
  ∃ st,
    Dashboard.plot_category_stats_lite Sample.listings (Some price)
      (Some (Dashboard.Column (λ r, Some (address r))))
      (Dashboard.Column (λ r, Some (type_item r))) = Dashboard.Shown st ∧
    Dashboard.avg_price st = Some 7750 ∧
    ∃ top, Dashboard.max_price st = Some (Z.of_N top) ∧ 0 ≤ 7750 ≤ Z.of_N top.
Proof.
  destruct (Dashboard.plot_category_stats_lite Sample.listings (Some price)
              (Some (Dashboard.Column (λ r, Some (address r))))
              (Dashboard.Column (λ r, Some (type_item r))))
    as [|st|n] eqn:Hst; [vm_compute in Hst; discriminate| |vm_compute in Hst; discriminate].
  assert (Havg : Dashboard.avg_price st = Some 7750).
  { apply plot_shown in Hst as (_ & _ & ->). reflexivity. }
  exists st. split; [reflexivity|]. split; [exact Havg|].
  destruct (average_is_at_most_maximum Sample.listings (Some price)
              (Some (Dashboard.Column (λ r, Some (address r))))
              (Dashboard.Column (λ r, Some (type_item r))) st 7750
              Hst Havg) as (col & top & _ & Hmax & Hle & _).
  exists top. split; [exact Hmax|exact Hle].
Defined.

(** ** The bar charts *)

Lemma NoDup_distinct_from (col : list (option string)) : ∀ seen,
  NoDup (Dashboard.distinct_from seen col).
Proof.
  induction col as [|[v|] col IH]; intros seen; simpl; [constructor| |apply IH].
  destruct (decide (v ∈ seen)); [apply IH|].
  constructor; [|apply IH].
  rewrite elem_of_distinct_from, not_elem_of_cons. tauto.
Qed.

Lemma NoDup_value_counts_keys (col : list (option string)) :
  NoDup (Dashboard.value_counts col).*1.
Proof.
  unfold Dashboard.value_counts. rewrite sort_bars_Permutation.
  unfold Dashboard.tally.
  assert (Hkeys : ∀ l : list string,
            ((λ v, (v, Dashboard.occurrences v col)) <$> l).*1 = l).
  { induction l as [|v l IH]; [reflexivity|]. rewrite !fmap_cons. by rewrite IH. }
  rewrite Hkeys. apply NoDup_distinct_from.
Qed.

Lemma StronglySorted_take {A} (R : relation A) (l : list A) (n : nat) :
  StronglySorted R l → StronglySorted R (take n l).
Proof.
  intros Hl. revert n. induction Hl as [|x l Hl IH Hx]; intros [|n]; simpl;
    try constructor; [apply IH|by apply Forall_take].
Qed.

(** The chart of a column: at most ten bars, one per value, the most
    frequent first, and no value left out is more frequent than a value
    shown. *)
Lemma top_ten (col : list (option string)) :
  let top := take 10 (Dashboard.value_counts col) in
  (length top ≤ 10)%nat ∧
  NoDup top.*1 ∧
  StronglySorted Dashboard.more_frequent top ∧
  (∀ v, Some v ∈ col → v ∉ top.*1 →
     ∀ v' n', (v', n') ∈ top → (Dashboard.occurrences v col ≤ n')%nat).
Proof.
  intros top.
  assert (Hsorted : StronglySorted Dashboard.more_frequent (Dashboard.value_counts col))
    by apply sort_bars_sorted.
  split; [unfold top; rewrite length_take; lia|]. split.
  { unfold top. rewrite fmap_take.
    eapply sublist_NoDup; [apply NoDup_value_counts_keys|apply sublist_take]. }
  split; [by apply StronglySorted_take|].
  intros v Hv Hnot v' n' Hin.
  assert (Hall : (v, Dashboard.occurrences v col) ∈ Dashboard.value_counts col)
    by (by apply elem_of_value_counts).
  rewrite <- (take_drop 10 (Dashboard.value_counts col)) in Hall, Hsorted.
  apply elem_of_app in Hall as [Hall|Hall].
  - exfalso. apply Hnot. apply list_elem_of_fmap.
    by exists (v, Dashboard.occurrences v col).
  - apply (StronglySorted_app_1_elem_of _ _ _ _ _ Hsorted Hin Hall).
Qed.

(** X11. Each of the two bar charts has at most ten bars, never two for
    the same value, with the counts going down from the first bar to the
    last; and a value of the column that has no bar occurs in no more rows
    than any value that has one. *)
Theorem charts_show_the_ten_most_frequent {R : Type} (df : list R)
    (price_col : option (R → string)) (address_col : option (Dashboard.column R))
    (item_col : Dashboard.column R) (st : Dashboard.stats) :
  Dashboard.plot_category_stats_lite df price_col address_col item_col
    = Dashboard.Shown st →
  let clean := (λ col r, Dashboard.read (Dashboard.clean_price (col r))) <$> price_col in
  let chart_of (col : R → option string) (top : list (string * nat)) :=
    (length top ≤ 10)%nat ∧
    NoDup top.*1 ∧
    StronglySorted (λ a b, (b.2 ≤ a.2)%nat) top ∧
    (∀ r v, r ∈ df → col r = Some v → v ∉ top.*1 →
       ∀ v' n', (v', n') ∈ top → (length (filter (λ r, col r = Some v) df) ≤ n')%nat) in
  chart_of (Dashboard.cells_after df clean item_col) (Dashboard.top_items st) ∧
  (∀ col, address_col = Some col →
     ∃ top, Dashboard.top_locations st = Some top ∧
            chart_of (Dashboard.cells_after df clean col) top) ∧
  (∀ cells, Dashboard.cells_after df clean (Dashboard.Column cells) = cells).
Proof.
  intros Hst clean chart_of. apply plot_shown in Hst as (_ & _ & ->).
  fold clean.
  assert (Hchart : ∀ col, chart_of col (take 10 (Dashboard.value_counts (col <$> df)))).
  { intros col. destruct (top_ten (col <$> df)) as (H1 & H2 & H3 & H4).
    split; [exact H1|]. split; [exact H2|]. split; [exact H3|].
    intros r v Hr Hv Hnot v' n' Hin. rewrite <- occurrences_fmap.
    assert (Hv' : Some v ∈ col <$> df) by (apply list_elem_of_fmap; by exists r).
    exact (H4 v Hv' Hnot v' n' Hin). }
  split; [apply Hchart|]. split; [|reflexivity].
  intros col ->. eexists. split; [reflexivity|apply Hchart].
Qed.

Lemma charts_show_the_ten_most_frequent_witness :
  ∃ st,
    Dashboard.plot_category_stats_lite Sample.listings (Some price)
      (Some (Dashboard.Column (λ r, Some (address r))))
      (Dashboard.Column (λ r, Some (type_item r))) = Dashboard.Shown st ∧
    (length (Dashboard.top_items st) ≤ 10)%nat ∧
    NoDup (Dashboard.top_items st).*1.
Proof.
  destruct (Dashboard.plot_category_stats_lite Sample.listings (Some price)
              (Some (Dashboard.Column (λ r, Some (address r))))
              (Dashboard.Column (λ r, Some (type_item r))))
    as [|st|n] eqn:Hst; [vm_compute in Hst; discriminate| |vm_compute in Hst; discriminate].
  exists st. split; [reflexivity|].
  pose proof (charts_show_the_ten_most_frequent Sample.listings (Some price)
                (Some (Dashboard.Column (λ r, Some (address r))))
                (Dashboard.Column (λ r, Some (type_item r))) st Hst) as H.
  cbv zeta in H. destruct H as [(H1 & H2 & _) _]. split; [exact H1|exact H2].
Defined.

(** * The scraping mode *)

Lemma scrape_data_requests_any w url_base table_name db_name csv_name user_pages max_limit s :
  requests (scrape_data w url_base table_name db_name csv_name user_pages max_limit s).2 =
    requests s ++
    if create_table_ok w
    then (λ i, (url_base, i)) <$> Py.range 1 (Z.min user_pages max_limit + 1)
    else [].
Proof.
  destruct (create_table_ok w) eqn:Hc; [by apply scrape_data_requests|].
  rewrite scrape_data_run, Hc. simpl. by rewrite app_nil_r.
Qed.

Lemma scrape_data_raises w url_base table_name db_name csv_name user_pages max_limit s :
  create_table_ok w = false ∨ read_sql_ok w = false →
  ∃ e, (scrape_data w url_base table_name db_name csv_name user_pages max_limit s).1
         = Raise e.
Proof.
  intros Hfail. rewrite scrape_data_run. cbv zeta.
  destruct (create_table_ok w); [|by eexists].
  destruct (read_sql_ok w); [|by eexists].
  destruct Hfail; discriminate.
Qed.

Lemma url_of_inj cat cat' : url_of cat = url_of cat' → cat = cat'.
Proof. destruct cat, cat'; simpl; intros H; try reflexivity; discriminate. Qed.

Section Mode.

Context (w : category → world) (Pages : Z).

Lemma call_scrape_data_untouched cat cat' a :
  cat ≠ cat' → untouched cat' a (call_scrape_data w cat Pages a).2.
Proof.
  intros Hne. unfold call_scrape_data, untouched. cbn [snd stores files sent].
  split; [|split].
  - rewrite decide_False; [reflexivity|]. intros Heq. by apply Hne.
  - unfold scrape_category. rewrite scrape_data_other_files; [reflexivity|].
    intros Heq. by apply Hne, csv_of_inj.
  - intros x Hx Hurl. unfold scrape_category in Hx.
    rewrite scrape_data_requests_any in Hx. cbn [requests] in Hx.
    apply elem_of_app in Hx as [Hx|Hx]; [exact Hx|]. exfalso.
    destruct (create_table_ok (w cat)); [|by apply elem_of_nil in Hx].
    apply list_elem_of_fmap in Hx as (i & -> & _). simpl in Hurl.
    by apply Hne, url_of_inj.
Qed.

Lemma untouched_refl cat a : untouched cat a a.
Proof. unfold untouched. auto. Qed.

Lemma untouched_trans cat a1 a2 a3 :
  untouched cat a1 a2 → untouched cat a2 a3 → untouched cat a1 a3.
Proof.
  intros (H1 & H2 & H3) (H4 & H5 & H6). unfold untouched.
  split; [congruence|]. split; [congruence|]. auto.
Qed.

Lemma call_scrape_data_raises cat a :
  create_table_ok (w cat) = false ∨ read_sql_ok (w cat) = false →
  ∃ e, (call_scrape_data w cat Pages a).1 = Raise e.
Proof. intros Hfail. unfold call_scrape_data. simpl. by apply scrape_data_raises. Qed.

Lemma call_scrape_data_sent cat a :
  create_table_ok (w cat) = true →
  sent (call_scrape_data w cat Pages a).2 = sent a ++ requests_of cat Pages.
Proof.
  intros Hc. unfold call_scrape_data, scrape_category. cbn [snd sent].
  by rewrite scrape_data_requests.
Qed.

Lemma call_scrape_data_returns cat a :
  create_table_ok (w cat) = true → read_sql_ok (w cat) = true →
  ∃ df, (call_scrape_data w cat Pages a).1 = Return df.
Proof.
  intros Hc Hr. unfold call_scrape_data, scrape_category. cbn [fst].
  destruct (scrape_data_returns (w cat) (url_of cat) (table_of cat) (db_of cat)
              (csv_of cat) Pages (cap_of cat)
              (Session false (stores a cat) [] (files a) (sent a)) Hc Hr)
    as (df & Hdf & _).
  by exists df.
Qed.

End Mode.

(** X12. No [try] stands around the four calls.  When the schema creation
    or the final read of a category fails, the scraping mode ends there
    with the exception: for every category that comes after it, no request
    is sent, the database is left as it was and so is the export. *)
Theorem failed_category_stops_scraping_mode
    (w : category → world) (Pages : Z) (a : app) (cat : category) :
  create_table_ok (w cat) = false ∨ read_sql_ok (w cat) = false →
  let run := scrape_mode w Pages a in
  (∃ e, run.1 = Raise e) ∧
  ∀ cat', (rank cat < rank cat')%nat → untouched cat' a run.2.
Proof.
  intros Hfail run.
  assert (Hraise : ∀ a0 df a1, call_scrape_data w cat Pages a0 ≠ (Return df, a1)).
  { intros a0 df a1 Heq. destruct (call_scrape_data_raises w Pages cat a0 Hfail) as [e He].
    rewrite Heq in He. discriminate. }
  unfold run, scrape_mode, mbind, app_py_bind.
  destruct (call_scrape_data w MensClothes Pages a) as [[d1|e1] a1] eqn:E1.
  2:{ split; [by eexists|]. intros cat' Hlt.
      replace a1 with (call_scrape_data w MensClothes Pages a).2 by (by rewrite E1).
      apply call_scrape_data_untouched. destruct cat'; simpl in Hlt; [lia|done..]. }
  destruct (call_scrape_data w MensShoes Pages a1) as [[d2|e2] a2] eqn:E2.
  2:{ split; [by eexists|]. intros cat' Hlt.
      destruct cat; [by apply Hraise in E1| | |]; simpl in Hlt;
        (apply (untouched_trans _ _ a1);
         [replace a1 with (call_scrape_data w MensClothes Pages a).2 by (by rewrite E1)
         |replace a2 with (call_scrape_data w MensShoes Pages a1).2 by (by rewrite E2)];
         apply call_scrape_data_untouched; destruct cat'; simpl in Hlt; (lia || done)). }
  destruct (call_scrape_data w ChildrenClothes Pages a2) as [[d3|e3] a3] eqn:E3.
  2:{ split; [by eexists|]. intros cat' Hlt.
      destruct cat; [by apply Hraise in E1|by apply Hraise in E2| |]; simpl in Hlt;
        (apply (untouched_trans _ _ a1);
         [replace a1 with (call_scrape_data w MensClothes Pages a).2 by (by rewrite E1)
         |apply (untouched_trans _ _ a2);
          [replace a2 with (call_scrape_data w MensShoes Pages a1).2 by (by rewrite E2)
          |replace a3 with (call_scrape_data w ChildrenClothes Pages a2).2
             by (by rewrite E3)]];
         apply call_scrape_data_untouched; destruct cat'; simpl in Hlt; (lia || done)). }
  destruct (call_scrape_data w ChildrenShoes Pages a3) as [[d4|e4] a4] eqn:E4.
  2:{ split; [by eexists|]. intros cat' Hlt.
      destruct cat; [by apply Hraise in E1|by apply Hraise in E2|
                     by apply Hraise in E3|].
      destruct cat'; simpl in Hlt; lia. }
  destruct cat; [by apply Hraise in E1|by apply Hraise in E2|
                 by apply Hraise in E3|by apply Hraise in E4].
Qed.

Lemma failed_category_stops_scraping_mode_witness :
  let a := App (λ _, []) ∅ [] in
  let run := scrape_mode Sample.shoes_unreadable 1 a in
  (create_table_ok (Sample.shoes_unreadable MensShoes) = false ∨
   read_sql_ok (Sample.shoes_unreadable MensShoes) = false) ∧
  (rank MensShoes < rank ChildrenShoes)%nat ∧
  (∃ e, run.1 = Raise e) ∧
  stores run.2 ChildrenShoes = [] ∧
  files run.2 !! csv_of ChildrenShoes = None.
Proof.
  intros a run.
  assert (Hfail : create_table_ok (Sample.shoes_unreadable MensShoes) = false ∨
                  read_sql_ok (Sample.shoes_unreadable MensShoes) = false)
    by (right; reflexivity).
  assert (Hlt : (rank MensShoes < rank ChildrenShoes)%nat) by (simpl; lia).
  pose proof (failed_category_stops_scraping_mode Sample.shoes_unreadable 1 a MensShoes
                Hfail) as H.
  cbv zeta in H. destruct H as [Hraise Hafter].
  destruct (Hafter ChildrenShoes Hlt) as (Hs & Hf & _).
  split; [exact Hfail|]. split; [exact Hlt|]. split; [exact Hraise|].
  split; [exact Hs|exact Hf].
Defined.

(** X13. When no schema creation and no final read fails, the scraping mode
    hands four tables to [load] and has sent the requests of the men's
    clothes, then those of the men's shoes, of the children's clothes and
    of the children's shoes, each from page 1 to the smaller of the slider
    and the cap of the category; with the slider between 1 and 120 that is
    never more than 268 requests. *)
Theorem scraping_mode_requests
    (w : category → world) (Pages : Z) (a : app) :
  (∀ cat, create_table_ok (w cat) = true ∧ read_sql_ok (w cat) = true) →
  1 ≤ Pages ≤ 120 →
  let run := scrape_mode w Pages a in
  (∃ df_mc df_ms df_cc df_cs,
     run.1 = Return [("Men Clothes Data"%string, df_mc); ("Men Shoes Data"%string, df_ms);
                     ("Children Clothes Data"%string, df_cc);
                     ("Children Shoes Data"%string, df_cs)]) ∧
  sent run.2 = sent a ++ requests_of MensClothes Pages ++ requests_of MensShoes Pages ++
               requests_of ChildrenClothes Pages ++ requests_of ChildrenShoes Pages ∧
  Z.of_nat (length (sent run.2)) =
    Z.of_nat (length (sent a)) +
    2 * Z.min Pages 119 + Z.min Pages 22 + Z.min Pages 8 ∧
  (length (sent run.2) ≤ length (sent a) + 268)%nat.
Proof.
  intros Hok HP run.
  assert (Hc : ∀ cat, create_table_ok (w cat) = true) by (intros cat; apply Hok).
  assert (Hr : ∀ cat, read_sql_ok (w cat) = true) by (intros cat; apply Hok).
  unfold run, scrape_mode, mbind, app_py_bind.
  destruct (call_scrape_data_returns w Pages MensClothes a (Hc _) (Hr _)) as [d1 H1].
  pose proof (call_scrape_data_sent w Pages MensClothes a (Hc _)) as S1.
  destruct (call_scrape_data w MensClothes Pages a) as [o1 a1]. simpl in H1, S1. subst o1.
  destruct (call_scrape_data_returns w Pages MensShoes a1 (Hc _) (Hr _)) as [d2 H2].
  pose proof (call_scrape_data_sent w Pages MensShoes a1 (Hc _)) as S2.
  destruct (call_scrape_data w MensShoes Pages a1) as [o2 a2]. simpl in H2, S2. subst o2.
  destruct (call_scrape_data_returns w Pages ChildrenClothes a2 (Hc _) (Hr _)) as [d3 H3].
  pose proof (call_scrape_data_sent w Pages ChildrenClothes a2 (Hc _)) as S3.
  destruct (call_scrape_data w ChildrenClothes Pages a2) as [o3 a3].
  simpl in H3, S3. subst o3.
  destruct (call_scrape_data_returns w Pages ChildrenShoes a3 (Hc _) (Hr _)) as [d4 H4].
  pose proof (call_scrape_data_sent w Pages ChildrenShoes a3 (Hc _)) as S4.
  destruct (call_scrape_data w ChildrenShoes Pages a3) as [o4 a4].
  simpl in H4, S4. subst o4. cbn [fst snd mret app_py_ret].
  assert (Hsent : sent a4 = sent a ++ requests_of MensClothes Pages ++
            requests_of MensShoes Pages ++ requests_of ChildrenClothes Pages ++
            requests_of ChildrenShoes Pages).
  { rewrite S4, S3, S2, S1. by rewrite <- !app_assoc. }
  assert (Hlen : ∀ cat, Z.of_nat (length (requests_of cat Pages)) = Z.min Pages (cap_of cat)).
  { intros cat. unfold requests_of. rewrite length_fmap, length_range.
    destruct cat; simpl; lia. }
  assert (Hcount : Z.of_nat (length (sent a4)) =
            Z.of_nat (length (sent a)) + 2 * Z.min Pages 119 + Z.min Pages 22 + Z.min Pages 8).
  { rewrite Hsent, !length_app, !Nat2Z.inj_add, !Hlen. simpl. lia. }
  split; [by exists d1, d2, d3, d4|]. split; [exact Hsent|].
  split; [exact Hcount|]. lia.
Qed.

Lemma scraping_mode_requests_witness :
  let w := Sample.everywhere Sample.same_card_everywhere in
  let run := scrape_mode w 120 (App (λ _, []) ∅ []) in
  (∀ cat, create_table_ok (w cat) = true ∧ read_sql_ok (w cat) = true) ∧
  1 ≤ 120 ≤ 120 ∧
  Z.of_nat (length (sent run.2)) = 268.
Proof.
  intros w run.
  assert (Hok : ∀ cat, create_table_ok (w cat) = true ∧ read_sql_ok (w cat) = true)
    by (intros cat; split; reflexivity).
  pose proof (scraping_mode_requests w 120 (App (λ _, []) ∅ []) Hok ltac:(lia)) as H.
  cbv zeta in H. destruct H as (_ & _ & Hcount & _).
  split; [exact Hok|]. split; [lia|]. exact Hcount.
Defined.

(** * The reading side *)

Lemma list_ascii_of_string_app (a b : string) :
  list_ascii_of_string (a +:+ b) = list_ascii_of_string a ++ list_ascii_of_string b.
Proof. induction a as [|c a IH]; simpl; [reflexivity|by rewrite IH]. Qed.

Lemma replace_space_by_underscore (s : string) :
  list_ascii_of_string (Py.replace s " " "_") =
    (λ c : ascii, if decide (c = " "%char) then "_"%char else c) <$> list_ascii_of_string s.
Proof.
  unfold Py.replace. induction s as [|c s IH]; [reflexivity|].
  cbn [Py.replace_from Py.startswith list_ascii_of_string fmap list_fmap].
  destruct (decide (" "%char = c)) as [<-|Hne].
  - rewrite decide_True by reflexivity.
    replace (Py.startswith s "") with true by (by destruct s).
    change (String.length " " - 1)%nat with 0%nat.
    rewrite list_ascii_of_string_app, IH. reflexivity.
  - rewrite decide_False by (intros ->; by apply Hne).
    cbn [list_ascii_of_string]. by rewrite IH.
Qed.

(** X14. Once its button is pressed, [load] shows the dimensions of the
    whole frame and a preview that holds its first rows, a hundred at most,
    while the download gives the whole frame; the name proposed for the
    download is the title with each space turned into an underscore,
    followed by [.csv], so it holds no space.  Without the press nothing is
    shown. *)
Theorem load_previews_first_hundred_rows
    (dataframe : Reader.frame) (title : string) :
  Reader.load dataframe title false = None ∧
  ∃ sh, Reader.load dataframe title true = Some sh ∧
    Reader.dimensions sh =
      (length (Reader.rows dataframe), length (Reader.columns dataframe)) ∧
    Reader.columns (Reader.preview sh) = Reader.columns dataframe ∧
    Reader.rows (Reader.preview sh) `prefix_of` Reader.rows dataframe ∧
    length (Reader.rows (Reader.preview sh)) = (100 `min` length (Reader.rows dataframe))%nat ∧
    Reader.data sh = dataframe ∧
    list_ascii_of_string (Reader.file_name sh) =
      ((λ c : ascii, if decide (c = " "%char) then "_"%char else c)
         <$> list_ascii_of_string title) ++ list_ascii_of_string ".csv" ∧
    (" " : ascii) ∉ list_ascii_of_string (Reader.file_name sh).
Proof.
  split; [reflexivity|]. eexists. split; [reflexivity|].
  cbn [Reader.dimensions Reader.preview Reader.data Reader.file_name Reader.head
       Reader.columns Reader.rows Reader.shape].
  split; [reflexivity|]. split; [reflexivity|].
  split; [apply prefix_take|]. split; [apply length_take|]. split; [reflexivity|].
  assert (Hname : list_ascii_of_string (Py.replace title " " "_" +:+ ".csv") =
      ((λ c : ascii, if decide (c = " "%char) then "_"%char else c)
         <$> list_ascii_of_string title) ++ list_ascii_of_string ".csv")
    by (by rewrite list_ascii_of_string_app, replace_space_by_underscore).
  split; [exact Hname|]. rewrite Hname, elem_of_app, list_elem_of_fmap.
  intros [(c & Hc & _)|Hin].
  - destruct (decide (c = " "%char)); [discriminate|congruence].
  - simpl in Hin. repeat (apply elem_of_cons in Hin as [Hin|Hin]; [discriminate|]).
    by apply elem_of_nil in Hin.
Qed.

(** ** The cache of [load_csv_data] *)

(** X15. [load_csv_data] answers from its cache.  What the first call with
    a filename returned is what every later call with that filename
    returns, whatever is written to the disk or removed from it in
    between; a file that was not there at the first call (and was not in
    the cache) stays an empty frame. *)
Theorem load_csv_data_keeps_first_answer
    (filename : string) (st : Reader.reader) (later : gmap string (option Reader.frame)) :
  let first := Reader.load_csv_data filename st in
  Reader.load_csv_data filename (Reader.Reader later (Reader.cache first.2)) =
    (first.1, Reader.Reader later (Reader.cache first.2)) ∧
  (Reader.disk st !! filename = None → Reader.cache st !! filename = None →
   first.1 = Reader.DataFrame).
Proof.
  intros first. unfold first, Reader.load_csv_data.
  destruct (Reader.cache st !! filename) as [df|] eqn:Hc; cbn [fst snd Reader.cache].
  - rewrite Hc. split; [reflexivity|]. intros _ [=].
  - rewrite lookup_insert_eq. split; [reflexivity|].
    intros Hd _. unfold Reader.read_file. by rewrite Hd.
Qed.

(** The export of the men's clothes is asked for before it exists, and
    again once it is written: the answer is still the empty frame. *)
Lemma load_csv_data_keeps_first_answer_witness :
  let st := ReaderSample.nothing in
  let first := Reader.load_csv_data (csv_of MensClothes) st in
  Reader.disk st !! csv_of MensClothes = None ∧
  Reader.cache st !! csv_of MensClothes = None ∧
  ReaderSample.exports_written !! csv_of MensClothes = Some (Some ReaderSample.two_rows) ∧
  (Reader.load_csv_data (csv_of MensClothes)
     (Reader.Reader ReaderSample.exports_written (Reader.cache first.2))).1
    = Reader.DataFrame.
Proof.
  intros st first.
  destruct (load_csv_data_keeps_first_answer (csv_of MensClothes) st
              ReaderSample.exports_written) as [Hsame Hempty].
  split; [apply lookup_empty|]. split; [apply lookup_empty|].
  split; [vm_compute; reflexivity|].
  fold first in Hsame, Hempty. rewrite Hsame. cbn [fst].
  apply Hempty; apply lookup_empty.
Defined.

Lemma load_csv_data_cached (filename : string) (st : Reader.reader) df :
  Reader.cache st !! filename = Some df →
  Reader.load_csv_data filename st = (df, st).
Proof. intros Hc. unfold Reader.load_csv_data. by rewrite Hc. Qed.

Lemma load_csv_data_cache (filename g : string) (st : Reader.reader) :
  Reader.disk (Reader.load_csv_data filename st).2 = Reader.disk st ∧
  (g ≠ filename →
   Reader.cache (Reader.load_csv_data filename st).2 !! g = Reader.cache st !! g) ∧
  (∀ df, Reader.cache st !! g = Some df →
         Reader.cache (Reader.load_csv_data filename st).2 !! g = Some df) ∧
  Reader.cache (Reader.load_csv_data filename st).2 !! filename =
    Some (Reader.load_csv_data filename st).1.
Proof.
  unfold Reader.load_csv_data.
  destruct (Reader.cache st !! filename) as [df|] eqn:Hc; cbn [fst snd Reader.cache Reader.disk].
  - auto.
  - split; [reflexivity|]. split; [intros Hne; by rewrite lookup_insert_ne|].
    split; [|apply lookup_insert_eq].
    intros df Hg. destruct (decide (g = filename)) as [->|Hne]; [congruence|].
    by rewrite lookup_insert_ne.
Qed.

(** A loop over files all cached as empty frames warns for each of them. *)
Lemma list_files_cached_empty (entries : list (string * string)) : ∀ st,
  (∀ e, e ∈ entries →
     ∃ df, Reader.cache st !! e.1 = Some df ∧ Reader.empty df = true) →
  Reader.list_files entries st = ((λ e, Reader.NotFound e.1) <$> entries, st).
Proof.
  induction entries as [|[f t] entries IH]; intros st Hall; [reflexivity|].
  destruct (Hall (f, t)) as (df & Hc & He); [left|]. simpl in Hc.
  cbn [Reader.list_files]. rewrite (load_csv_data_cached f st df Hc).
  rewrite IH by (intros e He'; apply Hall; by right).
  by rewrite He.
Qed.

Lemma list_files_keeps_cache (entries : list (string * string)) : ∀ st g df,
  Reader.cache st !! g = Some df →
  Reader.cache (Reader.list_files entries st).2 !! g = Some df.
Proof.
  induction entries as [|[f t] entries IH]; intros st g df Hg; [exact Hg|].
  cbn [Reader.list_files].
  pose proof (load_csv_data_cache f g st) as (_ & _ & Hk & _).
  destruct (Reader.load_csv_data f st) as [df1 st1].
  specialize (IH st1 g df (Hk df Hg)).
  destruct (Reader.list_files entries st1) as [out st2]. exact IH.
Qed.

(** After a loop over files the disk does not hold, each of them is in the
    cache as an empty frame, unless the cache held something else for it
    before. *)
Lemma list_files_caches_missing (entries : list (string * string)) : ∀ st,
  (∀ e, e ∈ entries →
     Reader.disk st !! e.1 = None ∧
     (Reader.cache st !! e.1 = None ∨
      ∃ df, Reader.cache st !! e.1 = Some df ∧ Reader.empty df = true)) →
  (Reader.list_files entries st).1 = (λ e, Reader.NotFound e.1) <$> entries ∧
  ∀ e, e ∈ entries →
    ∃ df, Reader.cache (Reader.list_files entries st).2 !! e.1 = Some df ∧
          Reader.empty df = true.
Proof.
  induction entries as [|[f t] entries IH]; intros st Hall;
    [split; [reflexivity|]; intros e He; by apply elem_of_nil in He|].
  pose proof (load_csv_data_cache f f st) as (Hdisk & _ & _ & Hf).
  assert (Hempty : Reader.empty (Reader.load_csv_data f st).1 = true).
  { destruct (Hall (f, t)) as [Hd Hc]; [left|]. simpl in Hd, Hc.
    unfold Reader.load_csv_data. destruct Hc as [Hc|(df & Hc & Hdf)]; rewrite Hc.
    - simpl. unfold Reader.read_file. by rewrite Hd.
    - exact Hdf. }
  assert (Hrest : ∀ e', e' ∈ entries →
     Reader.disk (Reader.load_csv_data f st).2 !! e'.1 = None ∧
     (Reader.cache (Reader.load_csv_data f st).2 !! e'.1 = None ∨
      ∃ df, Reader.cache (Reader.load_csv_data f st).2 !! e'.1 = Some df ∧
            Reader.empty df = true)).
  { intros e' He'. destruct (Hall e') as [Hd' Hc']; [by right|].
    rewrite Hdisk. split; [exact Hd'|].
    destruct (decide (e'.1 = f)) as [->|Hne]; [right; eauto|].
    pose proof (load_csv_data_cache f e'.1 st) as (_ & Hother & _).
    by rewrite Hother. }
  cbn [Reader.list_files].
  destruct (Reader.load_csv_data f st) as [df1 st1]. cbn [fst snd] in *.
  destruct (IH st1 Hrest) as [IHout IHcache].
  pose proof (list_files_keeps_cache entries st1 f df1 Hf) as Hkeep.
  destruct (Reader.list_files entries st1) as [out st2]. cbn [fst snd] in *.
  split; [by rewrite Hempty, IHout|].
  intros e He. apply elem_of_cons in He as [->|He]; [by exists df1|by apply IHcache].
Qed.

(** X16. A visit of the download page before any export is written fills
    the cache with empty frames: the page warns that the four files are not
    found, and it goes on warning so on every later visit, whatever has
    been written to the disk since, the four exports of a scrape included. *)
Theorem download_mode_stays_not_found
    (st : Reader.reader) (later : gmap string (option Reader.frame)) :
  (∀ cat, Reader.disk st !! csv_of cat = None ∧ Reader.cache st !! csv_of cat = None) →
  let warnings := [Reader.NotFound (csv_of MensClothes); Reader.NotFound (csv_of MensShoes);
                   Reader.NotFound (csv_of ChildrenClothes);
                   Reader.NotFound (csv_of ChildrenShoes)] in
  let first := Reader.download_mode st in
  first.1 = warnings ∧
  (Reader.download_mode (Reader.Reader later (Reader.cache first.2))).1 = warnings.
Proof.
  intros Hmissing warnings first.
  set (entries := [("mens_clothes_clean_data.csv", "Mens Clothes Data");
                   ("mens_shoes_clean_data.csv", "Mens Shoes Data");
                   ("children_clothes_clean_data.csv", "Children Clothes Data");
                   ("children_shoes_clean_data.csv", "Children Shoes Data")]%string).
  assert (Hcat : ∀ e, e ∈ entries → ∃ cat, e.1 = csv_of cat).
  { intros e He. unfold entries in He.
    repeat (apply elem_of_cons in He as [->|He];
            [first [by exists MensClothes|by exists MensShoes
                   |by exists ChildrenClothes|by exists ChildrenShoes]|]).
    by apply elem_of_nil in He. }
  destruct (list_files_caches_missing entries st) as [Hout Hcached].
  { intros e He. destruct (Hcat e He) as [cat ->].
    destruct (Hmissing cat) as [Hd Hc]. auto. }
  split.
  - unfold first, Reader.download_mode. fold entries. by rewrite Hout.
  - unfold Reader.download_mode. fold entries.
    rewrite list_files_cached_empty; [reflexivity|exact Hcached].
Qed.

Lemma download_mode_stays_not_found_witness :
  let st := ReaderSample.nothing in
  (∀ cat, Reader.disk st !! csv_of cat = None ∧ Reader.cache st !! csv_of cat = None) ∧
  (Reader.download_mode
     (Reader.Reader ReaderSample.exports_written
        (Reader.cache (Reader.download_mode st).2))).1 =
    [Reader.NotFound (csv_of MensClothes); Reader.NotFound (csv_of MensShoes);
     Reader.NotFound (csv_of ChildrenClothes); Reader.NotFound (csv_of ChildrenShoes)] ∧
  (Reader.download_mode (Reader.Reader ReaderSample.exports_written ∅)).1 =
    [Reader.Loaded "Mens Clothes Data" ReaderSample.two_rows;
     Reader.Loaded "Mens Shoes Data" ReaderSample.two_rows;
     Reader.Loaded "Children Clothes Data" ReaderSample.two_rows;
     Reader.Loaded "Children Shoes Data" ReaderSample.two_rows].
Proof.
  intros st.
  assert (Hmissing : ∀ cat, Reader.disk st !! csv_of cat = None ∧
                            Reader.cache st !! csv_of cat = None)
    by (intros cat; split; apply lookup_empty).
  pose proof (download_mode_stays_not_found st ReaderSample.exports_written Hmissing) as H.
  cbv zeta in H. destruct H as [_ H].
  split; [exact Hmissing|]. split; [exact H|]. vm_compute. reflexivity.
Defined.

(** ** [safe_plot] *)

Lemma first_existing_skips_missing (l1 : list string) : ∀ l2 st,
  (∀ g, g ∈ l1 → Reader.disk st !! g = None) →
  Reader.first_existing (l1 ++ l2) st = Reader.first_existing l2 st.
Proof.
  induction l1 as [|g l1 IH]; intros l2 st Hl1; [reflexivity|].
  rewrite <- app_comm_cons. cbn [Reader.first_existing].
  rewrite decide_False.
  - apply IH. intros g' Hg'. apply Hl1. by right.
  - rewrite (Hl1 g) by left. by intros [? [=]].
Qed.

(** X17. [safe_plot] reads the first file of its list that exists, and
    that one only: the files before it are not there, the files after it
    are not looked at and nothing of them enters the cache.  When what
    [load_csv_data] gives for that file is an empty frame, the tab says
    that no data was found, whatever the files after it hold; it says so
    too when no file of the list exists. *)
Theorem safe_plot_reads_first_existing_file
    (before after : list string) (fname : string) (st : Reader.reader) :
  (∀ g, g ∈ before → Reader.disk st !! g = None) →
  is_Some (Reader.disk st !! fname) →
  let filename_list := before ++ fname :: after in
  let loaded := Reader.load_csv_data fname st in
  Reader.safe_plot filename_list st =
    (if Reader.empty loaded.1 then Reader.NoDataFound filename_list
     else Reader.Visualizing fname loaded.1,
     loaded.2) ∧
  (∀ g, g ≠ fname →
     Reader.cache (Reader.safe_plot filename_list st).2 !! g = Reader.cache st !! g) ∧
  Reader.safe_plot before st = (Reader.NoDataFound before, st).
Proof.
  intros Hbefore Hexists filename_list loaded.
  assert (Hplot : Reader.safe_plot filename_list st =
    (if Reader.empty loaded.1 then Reader.NoDataFound filename_list
     else Reader.Visualizing fname loaded.1, loaded.2)).
  { unfold Reader.safe_plot, filename_list.
    rewrite first_existing_skips_missing by exact Hbefore.
    cbn [Reader.first_existing]. rewrite decide_True by exact Hexists.
    fold loaded. destruct loaded as [df st']. cbn [fst snd].
    by destruct (Reader.empty df). }
  split; [exact Hplot|]. split.
  - intros g Hne. rewrite Hplot. cbn [snd].
    destruct (load_csv_data_cache fname g st) as (_ & Hother & _).
    by apply Hother.
  - unfold Reader.safe_plot.
    pose proof (first_existing_skips_missing before [] st Hbefore) as H.
    rewrite app_nil_r in H. by rewrite H.
Qed.

Lemma safe_plot_reads_first_existing_file_witness :
  let st := ReaderSample.empty_local_file in
  (∀ g : string, g ∈ ([] : list string) → Reader.disk st !! g = None) ∧
  is_Some (Reader.disk st !! "men_clothes.csv"%string) ∧
  Reader.disk st !! "mens_clothes_clean_data.csv"%string = Some (Some ReaderSample.two_rows) ∧
  (Reader.safe_plot (Reader.files_map MensClothes) st).1 =
    Reader.NoDataFound (Reader.files_map MensClothes).
Proof.
  intros st.
  assert (Hnone : ∀ g : string, g ∈ ([] : list string) → Reader.disk st !! g = None)
    by (intros g Hg; by apply elem_of_nil in Hg).
  assert (Hsome : is_Some (Reader.disk st !! "men_clothes.csv"%string))
    by (vm_compute; eauto).
  pose proof (safe_plot_reads_first_existing_file [] ["mens_clothes_clean_data.csv"%string]
                "men_clothes.csv" st Hnone Hsome) as H.
  cbv zeta in H. destruct H as (Hplot & _ & _).
  split; [exact Hnone|]. split; [exact Hsome|].
  split; [vm_compute; reflexivity|].
  change (Reader.files_map MensClothes)
    with ([] ++ "men_clothes.csv"%string :: ["mens_clothes_clean_data.csv"%string]).
  rewrite Hplot. vm_compute. reflexivity.
Defined.

(** ** The columns of the dashboard *)

(** X18. The columns the dashboard picks are columns of the frame, so
    reading them cannot fail: a price column is picked exactly when the
    name of some column, in lower case, holds [price] or [prix]; the item
    column is always there when the frame has a column, because the first
    column stands in; and for a frame that is not empty the early return
    is not taken and "Total Items" shows the number of its rows.  The
    column [clean_price], which line 95 overwrites, is never charted as
    the address column, and is charted as the item column only when it is
    the first column of the frame.  Under the header of an export of the
    scraper the three columns picked are [price], [address] and
    [type_item]. *)
Theorem dashboard_columns_are_found (df : Reader.frame) :
  let cols := Reader.columns df in
  (∀ c, Reader.price_col cols = Some c →
        c ∈ cols ∧ (Reader.contains "price" (Reader.lower c)
                    || Reader.contains "prix" (Reader.lower c)) = true) ∧
  (Reader.price_col cols = None ↔
     ∀ c, c ∈ cols → Reader.contains "price" (Reader.lower c) = false ∧
                     Reader.contains "prix" (Reader.lower c) = false) ∧
  (∀ c, Reader.address_col cols = Some c →
        c ∈ cols ∧ Py.strip (Reader.lower c) ∈ Reader.possible_addr ∧
        c ≠ "clean_price"%string) ∧
  (Reader.item_col cols = Some "clean_price"%string →
     ∃ others, cols = "clean_price"%string :: others) ∧
  (Reader.empty df = false →
     (∃ c, Reader.item_col cols = Some c ∧ c ∈ cols) ∧
     Reader.plot_category_stats_lite df ≠ Dashboard.NoData ∧
     Dashboard.count_shown (Reader.plot_category_stats_lite df)
       = Some (length (Reader.rows df))) ∧
  (cols = ["type_item"; "price"; "address"; "image_link"]%string →
     Reader.price_col cols = Some "price"%string ∧
     Reader.address_col cols = Some "address"%string ∧
     Reader.item_col cols = Some "type_item"%string).
Proof.
  intros cols. split; [|split; [|split; [|split; [|split]]]].
  - intros c Hc. apply find_some in Hc as [Hin Hc].
    split; [by apply list_elem_of_In|exact Hc].
  - unfold Reader.price_col. split.
    + intros Hnone c Hc.
      pose proof (find_none _ _ Hnone c (proj1 (list_elem_of_In _ _) Hc)) as H.
      simpl in H. by apply orb_false_elim in H.
    + intros Hall. destruct (find _ cols) as [c|] eqn:Hf; [|reflexivity].
      apply find_some in Hf as [Hin Hf]. apply list_elem_of_In in Hin.
      destruct (Hall c Hin) as [H1 H2]. rewrite H1, H2 in Hf. discriminate.
  - intros c Hc. apply find_some in Hc as [Hin Hc].
    split; [by apply list_elem_of_In|]. split; [by apply bool_decide_eq_true in Hc|].
    intros ->. vm_compute in Hc. discriminate.
  - unfold Reader.item_col. destruct cols as [|c0 cols0]; [discriminate|].
    destruct (find _ (c0 :: cols0)) as [c|] eqn:Hf; simpl.
    + intros [= ->]. apply find_some in Hf as [_ Hf]. vm_compute in Hf. discriminate.
    + intros [= ->]. by exists cols0.
  - intros Hne. unfold Reader.empty in Hne. fold cols in Hne.
    assert (Hitem : ∃ c, Reader.item_col cols = Some c ∧ c ∈ cols).
    { unfold Reader.item_col. destruct cols as [|c0 cols0]; [discriminate|].
      destruct (find _ (c0 :: cols0)) as [c|] eqn:Hf; simpl.
      - exists c. split; [reflexivity|].
        apply find_some in Hf as [Hin _]. by apply list_elem_of_In.
      - exists c0. split; [reflexivity|left]. }
    split; [exact Hitem|]. destruct Hitem as (c & Hc & _).
    unfold Reader.plot_category_stats_lite, Reader.empty. fold cols.
    destruct cols as [|c0 cols0]; [discriminate|].
    destruct (Reader.rows df) as [|r0 rows0] eqn:Hrows; [discriminate|].
    rewrite Hc. unfold Dashboard.plot_category_stats_lite.
    destruct (from_option _ _ _); split; (discriminate || reflexivity).
  - intros ->. split; [|split]; reflexivity.
Qed.

Lemma dashboard_columns_are_found_witness :
  Reader.empty ReaderSample.two_rows = false ∧
  Reader.item_col (Reader.columns ReaderSample.two_rows) = Some "type_item"%string ∧
  Dashboard.count_shown (Reader.plot_category_stats_lite ReaderSample.two_rows)
    = Some 2%nat ∧
  Reader.empty ReaderSample.huge_price = false ∧
  Reader.plot_category_stats_lite ReaderSample.huge_price = Dashboard.OutOfRange 2 ∧
  Dashboard.count_shown (Reader.plot_category_stats_lite ReaderSample.huge_price)
    = Some 2%nat.
Proof.
  pose proof (dashboard_columns_are_found ReaderSample.two_rows) as H.
  cbv zeta in H. destruct H as (_ & _ & _ & _ & Hne & Hschema).
  destruct (Hne eq_refl) as (_ & _ & Hcount).
  destruct (Hschema eq_refl) as (_ & _ & Hitem).
  pose proof (dashboard_columns_are_found ReaderSample.huge_price) as H'.
  cbv zeta in H'. destruct H' as (_ & _ & _ & _ & Hne' & _).
  destruct (Hne' eq_refl) as (_ & _ & Hcount').
  split; [reflexivity|]. split; [exact Hitem|]. split; [exact Hcount|].
  split; [reflexivity|]. split; [vm_compute; reflexivity|exact Hcount'].
Defined.

(** ** A first visit of a page of files *)

(** X19. On a visit with nothing in the cache yet, a page that lists files
    of different names gives each file its entry, in the order of the
    list: the frame read from the disk when it has rows, and otherwise the
    warning that the file is not found, which is thus also what a file
    that exists gets when [pd.read_csv] fails on it or finds no row. *)
Theorem first_visit_lists_each_file
    (entries : list (string * string)) (st : Reader.reader)
    (i : nat) (filename title : string) :
  NoDup entries.*1 →
  (∀ e, e ∈ entries → Reader.cache st !! e.1 = None) →
  entries !! i = Some (filename, title) →
  let df := Reader.read_file (Reader.disk st) filename in
  (Reader.list_files entries st).1 !! i =
    Some (if Reader.empty df then Reader.NotFound filename else Reader.Loaded title df) ∧
  (Reader.disk st !! filename = None ∨ Reader.disk st !! filename = Some None ∨
   (∃ cols, Reader.disk st !! filename = Some (Some (Reader.Frame cols []))) →
   (Reader.list_files entries st).1 !! i = Some (Reader.NotFound filename)).
Proof.
  intros Hnd Hcache Hi df.
  assert (Hout : (Reader.list_files entries st).1 !! i =
    Some (if Reader.empty df then Reader.NotFound filename else Reader.Loaded title df)).
  { unfold df. clear df. revert st i Hnd Hcache Hi.
    induction entries as [|[f0 t0] entries IH]; intros st i Hnd Hcache Hi; [done|].
    cbn [Reader.list_files]. unfold Reader.load_csv_data.
    assert (Hc0 : Reader.cache st !! f0 = None) by (apply (Hcache (f0, t0)); left).
    rewrite Hc0.
    set (st1 := Reader.Reader (Reader.disk st)
                  (<[f0 := Reader.read_file (Reader.disk st) f0]> (Reader.cache st))).
    rewrite fmap_cons in Hnd. apply NoDup_cons in Hnd as [Hf0 Hnd].
    specialize (IH st1).
    destruct (Reader.list_files entries st1) as [out st2]. cbn [fst] in *.
    destruct i as [|i]; simpl in Hi.
    - injection Hi as -> ->. simpl.
      by destruct (Reader.empty (Reader.read_file (Reader.disk st) filename)).
    - simpl. apply (IH i Hnd); [|exact Hi].
      intros e He. unfold st1. cbn [Reader.cache].
      rewrite lookup_insert_ne; [apply Hcache; by right|].
      intros Heq. apply Hf0. rewrite Heq. apply list_elem_of_fmap. by exists e. }
  split; [exact Hout|].
  intros Hbad. rewrite Hout. unfold df, Reader.read_file.
  destruct Hbad as [->|[->|(cols & ->)]]; try reflexivity.
  unfold Reader.empty. simpl. by destruct cols.
Qed.

Lemma first_visit_lists_each_file_witness :
  let entries := [("men_clothes.csv", "Men's Clothes");
                  ("mens_clothes_clean_data.csv", "Mens Clothes Data")]%string in
  let st := ReaderSample.empty_local_file in
  NoDup entries.*1 ∧
  (∀ e, e ∈ entries → Reader.cache st !! e.1 = None) ∧
  (Reader.list_files entries st).1 !! 0%nat = Some (Reader.NotFound "men_clothes.csv") ∧
  (Reader.list_files entries st).1 !! 1%nat =
    Some (Reader.Loaded "Mens Clothes Data" ReaderSample.two_rows).
Proof.
  intros entries st.
  assert (Hnd : NoDup entries.*1).
  { simpl. constructor; [|constructor; [apply not_elem_of_nil|constructor]].
    intros Hin. apply list_elem_of_singleton in Hin. discriminate. }
  assert (Hcache : ∀ e, e ∈ entries → Reader.cache st !! e.1 = None)
    by (intros e _; apply lookup_empty).
  destruct (first_visit_lists_each_file entries st 0 "men_clothes.csv" "Men's Clothes"
              Hnd Hcache eq_refl) as [_ H0].
  destruct (first_visit_lists_each_file entries st 1 "mens_clothes_clean_data.csv"
              "Mens Clothes Data" Hnd Hcache eq_refl) as [H1 _].
  split; [exact Hnd|]. split; [exact Hcache|]. split.
  - apply H0. right. right. eexists. vm_compute. reflexivity.
  - etransitivity; [exact H1|]. vm_compute. reflexivity.
Defined.

(** * Where the rows of the store come from *)

Lemma after_page_provenance w url_base s index r :
  r ∈ table (after_page w url_base s index) ++ pending (after_page w url_base s index) →
  r ∈ table s ++ pending s ∨ r ∈ page_rows w url_base index.
Proof.
  unfold after_page, page_rows.
  destruct (page w url_base index) as [cs|]; [|by left].
  destruct (commit w index); simpl; rewrite ?app_nil_r, ?elem_of_app; tauto.
Qed.

Lemma foldl_after_page_provenance w url_base (l : list Z) : ∀ s r,
  r ∈ table (foldl (after_page w url_base) s l)
      ++ pending (foldl (after_page w url_base) s l) →
  r ∈ table s ++ pending s ∨ ∃ i, i ∈ l ∧ r ∈ page_rows w url_base i.
Proof.
  induction l as [|i l IH]; intros s r Hr; simpl in Hr; [by left|].
  apply IH in Hr as [Hr|(j & Hj & Hr)].
  - apply after_page_provenance in Hr as [Hr|Hr]; [by left|].
    right. exists i. split; [left|exact Hr].
  - right. exists j. split; [by right|exact Hr].
Qed.

(** X20. No row is made up.  A row of the store at the end of a session,
    and a row of the table the routine returns, is a row the store held
    when the session began or the row of a card: a card of one of the pages
    requested, whose lookups and whose INSERT went through. *)
Theorem rows_come_from_the_store_or_a_card
    (w : world) (url_base table_name db_name csv_name : string)
    (user_pages max_limit : Z) (s : session) (r : row) :
  let run := scrape_data w url_base table_name db_name csv_name user_pages max_limit s in
  r ∈ table run.2 ∨ (∃ df, run.1 = Return df ∧ r ∈ df) →
  r ∈ table s ∨
  ∃ index cs pos c,
    1 ≤ index ≤ actual_pages user_pages max_limit ∧
    page w url_base index = Some cs ∧ cs !! pos = Some c ∧
    extract c = Some r ∧ insert_ok w index pos = true.
Proof.
  intros run Hr.
  set (s1 := set_pending [] (set_conn_open true s)).
  set (s2 := after_pages w url_base s1 (actual_pages user_pages max_limit)).
  assert (Hvisible : r ∈ table s2 ++ pending s2 ∨ r ∈ table s).
  { destruct (create_table_ok w) eqn:Hc.
    - destruct Hr as [Hr|(df & Hdf & Hr)].
      + left. unfold run in Hr. rewrite scrape_data_table in Hr by done.
        apply elem_of_app. by left.
      + destruct (read_sql_ok w) eqn:Hrd.
        * destruct (scrape_data_returns w url_base table_name db_name csv_name
                      user_pages max_limit s Hc Hrd) as (df' & Hdf' & Hin).
          fold run in Hdf'. rewrite Hdf in Hdf'. injection Hdf' as <-.
          left. by apply Hin.
        * destruct (scrape_data_raises w url_base table_name db_name csv_name
                      user_pages max_limit s (or_intror Hrd)) as [e He].
          fold run in He. rewrite Hdf in He. discriminate.
    - unfold run in Hr. rewrite scrape_data_run, Hc in Hr. cbv zeta in Hr.
      destruct Hr as [Hr|(df & [=] & _)]. by right. }
  destruct Hvisible as [Hvisible|Hold]; [|by left].
  apply foldl_after_page_provenance in Hvisible as [Hold|(i & Hi & Hrow)].
  - left. simpl in Hold. by rewrite app_nil_r in Hold.
  - right. apply elem_of_range in Hi.
    apply elem_of_page_rows in Hrow as (cs & pos & c & Hcs & Hpos & He & Hins).
    exists i, cs, pos, c. repeat split; [lia|lia|done..].
Qed.

Lemma rows_come_from_the_store_or_a_card_witness :
  let w := Sample.page_with_no_src in
  let run := scrape_category w ChildrenShoes 1 Sample.fresh in
  let r := Row "Sandales" "3000" "Thies" None in
  r ∈ table run.2 ∧
  ∃ index cs pos c,
    1 ≤ index ≤ actual_pages 1 (cap_of ChildrenShoes) ∧
    page w (url_of ChildrenShoes) index = Some cs ∧ cs !! pos = Some c ∧
    extract c = Some r.
Proof.
  intros w run r.
  assert (Hin : r ∈ table run.2) by (vm_compute; left).
  split; [exact Hin|].
  destruct (rows_come_from_the_store_or_a_card w (url_of ChildrenShoes)
              (table_of ChildrenShoes) (db_of ChildrenShoes) (csv_of ChildrenShoes)
              1 (cap_of ChildrenShoes) Sample.fresh r (or_introl Hin))
    as [Hold|(index & cs & pos & c & H1 & H2 & H3 & H4 & _)].
  - by apply elem_of_nil in Hold.
  - by exists index, cs, pos, c.
Defined.
